(** * The local media server of status-go (server/server.go)

    A shallow embedding of the loopback HTTPS server: the process-wide
    certificate cache, the three resource handlers and the
    listener/lifecycle controller, followed by the properties of the
    specification that concern them. *)

From Stdlib Require Import ZArith Lia.
From Stdlib Require Import Strings.String Strings.Byte.
From stdpp Require Import base option list strings gmap.

(** ** Common data *)

(** Go [error] values.  [http.ErrServerClosed] and [sql.ErrNoRows] are
    sentinels that the code (or the libraries it calls) compare by
    identity; every other error only carries its text. *)
Inductive Error : Type :=
  | ErrServerClosed
  | ErrNoRows
  | ErrMsg (msg : string).

#[global] Instance Error_eq_dec : EqDecision Error.
Proof. solve_decision. Defined.

(** A Go [(T, error)] result whose value is meaningless on error. *)
Inductive result (A : Type) : Type :=
  | Ok (a : A)
  | Err (e : Error).
Arguments Ok {A} a.
Arguments Err {A} e.

(** [time.Time] as nanoseconds since the epoch, [time.Duration] as
    nanoseconds. *)
Definition Time : Type := Z.
Definition Duration : Type := Z.
Definition Hour : Duration := (3600 * 1000000000)%Z.
Definition Time_Add (t : Time) (d : Duration) : Time := (t + d)%Z.

(** One record of a [zap.Logger]: the message and the [zap.Error] field
    when the call passes one. *)
Record LogEntry : Type := mkLog { log_msg : string; log_err : option Error }.

#[global] Instance LogEntry_eq_dec : EqDecision LogEntry.
Proof. solve_decision. Defined.

(** The logger as the list of the records it has received, oldest first. *)
Definition Logger : Type := list LogEntry.
Definition Logger_Error (msg : string) (fields : option Error) (l : Logger) : Logger :=
  l ++ [mkLog msg fields].

#[global] Instance byte_eq_decision : EqDecision byte := Byte.byte_eq_dec.

(** [tls.Certificate]: the DER chain and the private key it was parsed
    from. *)
Record tls_Certificate : Type := mkTLSCert {
  Certificate : list (list byte);
  PrivateKey : list byte
}.

#[global] Instance tls_Certificate_eq_dec : EqDecision tls_Certificate.
Proof. solve_decision. Defined.

(** ** The certificate provider *)

(** The cryptographic collaborators of [generateTLSCert].  The two
    helpers [GenerateX509Cert] and [GenerateX509PEMs] belong to the same
    package but to another file; like [ecdsa.GenerateKey] they draw from
    [rand.Reader], whose state is threaded through. *)
Class Crypto : Type := {
  ecdsa_PrivateKey : Type;
  x509_Certificate : Type;
  Entropy : Type;
  ecdsa_GenerateKey_P256 : Entropy -> result ecdsa_PrivateKey * Entropy;
  GenerateX509Cert : Time -> Time -> Entropy -> result x509_Certificate * Entropy;
  GenerateX509PEMs :
    x509_Certificate -> ecdsa_PrivateKey -> Entropy ->
    result (list byte * list byte) * Entropy;
  tls_X509KeyPair : list byte -> list byte -> result tls_Certificate
}.

Section CertificateProvider.
Context `{Crypto}.

(** The package-level variables [globalCertificate] and [globalPem],
    with the two pieces of process state generation reads: the
    entropy source and the wall clock. *)
Record Process : Type := mkProcess {
  globalCertificate : option tls_Certificate;
  globalPem : string;
  rand_Reader : Entropy;
  wall_clock : Time
}.

(** Computations over the process state that may fail with a Go
    error; [bind] is the [if err != nil { return err }] idiom. *)
Definition Gen (A : Type) : Type := Process -> result A * Process.

Definition gen_ret {A} (a : A) : Gen A := fun p => (Ok a, p).

Definition gen_bind {A B} (c : Gen A) (k : A -> Gen B) : Gen B :=
  fun p =>
    match c p with
    | (Ok a, p') => k a p'
    | (Err e, p') => (Err e, p')
    end.

Definition gen_lift {A} (r : result A) : Gen A := fun p => (r, p).

(** A collaborator that consumes entropy. *)
Definition with_rand {A} (f : Entropy -> result A * Entropy) : Gen A :=
  fun p =>
    let '(r, e) := f (rand_Reader p) in
    (r, mkProcess (globalCertificate p) (globalPem p) e (wall_clock p)).

Definition time_Now : Gen Time := fun p => (Ok (wall_clock p), p).

Definition store_globals (c : tls_Certificate) (pem : string) : Gen unit :=
  fun p => (Ok tt, mkProcess (Some c) pem (rand_Reader p) (wall_clock p)).

#[local] Instance Gen_ret : MRet Gen := @gen_ret.
#[local] Instance Gen_bind : MBind Gen := fun A B k c => gen_bind c k.

Definition generateTLSCert : Gen unit :=
  fun p =>
    match globalCertificate p with
    | Some _ => (Ok tt, p)
    | None =>
        (priv ← with_rand ecdsa_GenerateKey_P256;
         notBefore ← time_Now;
         let notAfter := Time_Add notBefore (365 * 24 * Hour)%Z in
         cert ← with_rand (GenerateX509Cert notBefore notAfter);
         '(certPem, keyPem) ← with_rand (GenerateX509PEMs cert priv);
         finalCert ← gen_lift (tls_X509KeyPair certPem keyPem);
         store_globals finalCert (string_of_list_byte certPem)) p
    end.

(** [PublicTLSCert] returns the pair [(string, error)] of the source. *)
Definition PublicTLSCert (p : Process) : (string * option Error) * Process :=
  match generateTLSCert p with
  | (Err err, p') => ((EmptyString, Some err), p')
  | (Ok _, p') => ((globalPem p', None), p')
  end.

End CertificateProvider.

(** ** The resource handlers *)

(** The row store behind [*sql.DB]: table [user_messages] keyed by
    [id], with the two payload columns the handlers select.  A NULL
    column scans into a nil slice, which is the empty list here. *)
Record user_message : Type := mkMessage {
  image_payload : list byte;
  audio_payload : list byte
}.

Abbreviation DB := (gmap string user_message).

(** [db.QueryRow(`SELECT col FROM user_messages WHERE id = ?`, id).Scan(&dst)] *)
Definition QueryRow_Scan (col : user_message -> list byte) (db : DB) (id : string)
  : result (list byte) :=
  match db !! id with
  | Some row => Ok (col row)
  | None => Err ErrNoRows
  end.

(** [url.Values] and [http.Header] are both [map[string][]string]. *)
Abbreviation Values := (gmap string (list string)).

(** The part of [*http.Request] the handlers read; [URL_Query] is the
    value of [r.URL.Query()]. *)
Record Request : Type := mkRequest {
  URL_Path : string;
  URL_Query : Values
}.

(** Go's two-result map index [v, ok := m[k]]: the zero value and
    [false] when the key is absent. *)
Definition map_index (m : Values) (k : string) : list string * bool :=
  match m !! k with
  | Some v => (v, true)
  | None => ([], false)
  end.

(** An [http.ResponseWriter]: the header map, the bytes the handler
    has handed to [Write] so far, and the error the connection answers
    a [Write] with (none on a healthy connection). *)
Record ResponseWriter : Type := mkWriter {
  Header : Values;
  Body : list byte;
  conn_err : option Error
}.

Definition Header_Set (k v : string) (w : ResponseWriter) : ResponseWriter :=
  mkWriter (<[k := [v]]> (Header w)) (Body w) (conn_err w).

Definition Write (p : list byte) (w : ResponseWriter) : option Error * ResponseWriter :=
  (conn_err w, mkWriter (Header w) (Body w ++ p) (conn_err w)).

(** The handler structs.  Their [logger] field points to the logger of
    the server that registered them; its state is passed to [ServeHTTP]
    and returned by it. *)
Record imageHandler : Type := mk_imageHandler { imageHandler_db : DB }.
Record audioHandler : Type := mk_audioHandler { audioHandler_db : DB }.
Inductive identiconHandler : Type := mk_identiconHandler.

(** [http.TimeFormat] *)
Definition http_TimeFormat : string := "Mon, 02 Jan 2006 15:04:05 GMT".

(** The collaborators of the handlers: the identicon generator, the
    MIME sniffer (both return their value next to the error, as in Go)
    and the calendar functions of package [time]. *)
Class Media : Type := {
  identicon_Generate : string -> list byte * option Error;
  images_ImageMime : list byte -> string * option Error;
  Time_AddDate : Time -> Z -> Z -> Z -> Time;
  Time_Format : Time -> string -> string
}.

(** What a handler call leaves behind: the logger and the response
    writer.  [None] is a run-time panic. *)
Abbreviation Served := (option (Logger * ResponseWriter)).

(** [if err != nil { logger.Error(msg, zap.Error(err)) }] *)
Definition log_if_err (msg : string) (err : option Error) (lg : Logger) : Logger :=
  match err with
  | Some e => Logger_Error msg (Some e) lg
  | None => lg
  end.

Section Handlers.
Context `{Media}.

Definition identiconHandler_ServeHTTP (s : identiconHandler) (now : Time)
    (lg : Logger) (w : ResponseWriter) (r : Request) : Served :=
  let '(pks, ok) := map_index (URL_Query r) "publicKey" in
  if negb ok || (length pks =? 0)%nat then
    Some (Logger_Error "no publicKey" None lg, w)
  else
    pk ← pks !! 0%nat;
    let '(image, err) := identicon_Generate pk in
    let lg := match err with
              | Some _ => Logger_Error "could not generate identicon" None lg
              | None => lg
              end in
    let w := Header_Set "Content-Type" "image/png" w in
    let w := Header_Set "Cache-Control" "max-age:290304000, public" w in
    let w := Header_Set "Expires"
               (Time_Format (Time_AddDate now 60 0 0) http_TimeFormat) w in
    let '(err, w) := Write image w in
    Some (log_if_err "failed to write image" err lg, w).

Definition imageHandler_ServeHTTP (s : imageHandler)
    (lg : Logger) (w : ResponseWriter) (r : Request) : Served :=
  let '(messageIDs, ok) := map_index (URL_Query r) "messageId" in
  if negb ok || (length messageIDs =? 0)%nat then
    Some (Logger_Error "no messageID" None lg, w)
  else
    messageID ← messageIDs !! 0%nat;
    match QueryRow_Scan image_payload (imageHandler_db s) messageID with
    | Err err => Some (Logger_Error "failed to find image" (Some err) lg, w)
    | Ok image =>
        if (length image =? 0)%nat then
          Some (Logger_Error "empty image" None lg, w)
        else
          let '(mime, err) := images_ImageMime image in
          let lg := log_if_err "failed to get mime" err lg in
          let w := Header_Set "Content-Type" mime w in
          let w := Header_Set "Cache-Control" "no-store" w in
          let '(err, w) := Write image w in
          Some (log_if_err "failed to write image" err lg, w)
    end.

Definition audioHandler_ServeHTTP (s : audioHandler)
    (lg : Logger) (w : ResponseWriter) (r : Request) : Served :=
  let '(messageIDs, ok) := map_index (URL_Query r) "messageId" in
  if negb ok || (length messageIDs =? 0)%nat then
    Some (Logger_Error "no messageID" None lg, w)
  else
    messageID ← messageIDs !! 0%nat;
    match QueryRow_Scan audio_payload (audioHandler_db s) messageID with
    | Err err => Some (Logger_Error "failed to find image" (Some err) lg, w)
    | Ok audio =>
        if (length audio =? 0)%nat then
          Some (Logger_Error "empty audio" None lg, w)
        else
          let w := Header_Set "Content-Type" "audio/aac" w in
          let w := Header_Set "Cache-Control" "no-store" w in
          let '(err, w) := Write audio w in
          Some (log_if_err "failed to write audio" err lg, w)
    end.

End Handlers.

(** ** The listener and lifecycle controller *)

(** A handler registered in an [http.ServeMux]. *)
Inductive Handler : Type :=
  | HImage (h : imageHandler)
  | HAudio (h : audioHandler)
  | HIdenticon (h : identiconHandler).

(** [http.Server]: the mux given as [Handler], and whether [Shutdown]
    has been called on it. *)
Record http_Server : Type := mk_http_Server {
  http_Handler : gmap string Handler;
  inShutdown : bool
}.

(** [tls.Config], with the three fields the code sets. *)
Record tls_Config : Type := mk_tls_Config {
  Certificates : list tls_Certificate;
  ServerName : string;
  MinVersion : Z
}.

Definition tls_VersionTLS12 : Z := 771.

(** A TLS listener: the TCP port it is bound to and its configuration. *)
Record Listener : Type := mkListener {
  Addr_Port : Z;
  listener_cfg : tls_Config
}.

(** The loopback interface: the TCP ports in use (by this process or by
    another one) and the order in which the operating system tries
    ephemeral ports. *)
Record Net : Type := mkNet {
  in_use : gset Z;
  ephemeral : list Z
}.

Definition net_bind (p : Z) (n : Net) : Net := mkNet ({[p]} ∪ in_use n) (ephemeral n).
Definition net_close (p : Z) (n : Net) : Net := mkNet (in_use n ∖ {[p]}) (ephemeral n).

Definition port_free (n : Net) (q : Z) : bool :=
  bool_decide (q ∉ in_use n) && (0 <? q)%Z && (q <=? 65535)%Z.

(** [tls.Listen("tcp", "localhost:<port>", cfg)]: port 0 asks for the
    first free ephemeral port; any other port is bound if it is a TCP
    port and free. *)
Definition tls_Listen (port : Z) (cfg : tls_Config) (n : Net) : result Listener * Net :=
  if (port <? 0)%Z || (65535 <? port)%Z then
    (Err (ErrMsg "listen tcp: address: invalid port"), n)
  else if (port =? 0)%Z then
    match List.find (port_free n) (ephemeral n) with
    | Some q => (Ok (mkListener q cfg), net_bind q n)
    | None => (Err (ErrMsg "listen tcp: bind: cannot assign requested address"), n)
    end
  else if bool_decide (port ∈ in_use n) then
    (Err (ErrMsg "listen tcp: bind: address already in use"), n)
  else
    (Ok (mkListener port cfg), net_bind port n).

(** The [Server] struct.  [server] is a pointer into the heap of
    [http.Server] objects ([None] is nil); [logger] holds the state of
    the logger it points to. *)
Record Server : Type := mkServer {
  Port : Z;
  run : bool;
  server : option nat;
  logger : Logger;
  db : DB;
  cert : option tls_Certificate
}.

(** A goroutine started by [go s.listenAndServe()]: not yet scheduled,
    blocked in [s.server.Serve(listener)] on the given [http.Server],
    or returned. *)
Inductive Goroutine : Type :=
  | GListen
  | GServing (h : nat) (l : Listener)
  | GDone.

(** The state the controller acts on: the server struct, the
    [http.Server] objects allocated so far (a pointer is an index),
    the goroutines and the network. *)
Record World : Type := mkWorld {
  srv : Server;
  http_servers : list http_Server;
  goroutines : list Goroutine;
  network : Net
}.

Definition set_Port (p : Z) (w : World) : World :=
  let s := srv w in
  mkWorld (mkServer p (run s) (server s) (logger s) (db s) (cert s))
          (http_servers w) (goroutines w) (network w).

Definition set_run (b : bool) (w : World) : World :=
  let s := srv w in
  mkWorld (mkServer (Port s) b (server s) (logger s) (db s) (cert s))
          (http_servers w) (goroutines w) (network w).

Definition set_server (h : option nat) (w : World) : World :=
  let s := srv w in
  mkWorld (mkServer (Port s) (run s) h (logger s) (db s) (cert s))
          (http_servers w) (goroutines w) (network w).

Definition log_Error (msg : string) (fields : option Error) (w : World) : World :=
  let s := srv w in
  mkWorld (mkServer (Port s) (run s) (server s)
                    (Logger_Error msg fields (logger s)) (db s) (cert s))
          (http_servers w) (goroutines w) (network w).

Definition set_network (n : Net) (w : World) : World :=
  mkWorld (srv w) (http_servers w) (goroutines w) n.

Definition set_goroutine (g : nat) (st : Goroutine) (w : World) : World :=
  mkWorld (srv w) (http_servers w) (<[g := st]> (goroutines w)) (network w).

(** [&http.Server{...}] *)
Definition new_http_Server (hs : http_Server) (w : World) : nat * World :=
  (length (http_servers w),
   mkWorld (srv w) (http_servers w ++ [hs]) (goroutines w) (network w)).

(** [go s.listenAndServe()] *)
Definition go_listenAndServe (w : World) : World :=
  mkWorld (srv w) (http_servers w) (goroutines w ++ [GListen]) (network w).

(** The result of running a piece of the controller: the next state, a
    run-time panic, or nothing when the piece cannot run in this state. *)
Inductive Outcome : Type :=
  | Next (w : World)
  | Panic
  | Blocked.

Definition Start (w : World) : option Error * World :=
  let s := srv w in
  let handler : gmap string Handler :=
    <["/messages/identicons" := HIdenticon mk_identiconHandler]>
      (<["/messages/audio" := HAudio (mk_audioHandler (db s))]>
         (<["/messages/images" := HImage (mk_imageHandler (db s))]> ∅)) in
  let '(h, w) := new_http_Server (mk_http_Server handler false) w in
  let w := set_server (Some h) w in
  let w := go_listenAndServe w in
  (None, w).

(** The tail of [listenAndServe], from the return of
    [s.server.Serve(listener)] with [err] in goroutine [g]. *)
Definition Serve_returned (g : nat) (err : Error) (w : World) : World :=
  if bool_decide (err ≠ ErrServerClosed) then
    let w := log_Error "server failed unexpectedly, restarting" (Some err) w in
    let '(err, w) := Start w in
    let w := match err with
             | Some e => log_Error "server start failed, giving up" (Some e) w
             | None => w
             end in
    set_goroutine g GDone w
  else
    let w := set_run false w in
    set_goroutine g GDone w.

(** [&tls.Config{Certificates: []tls.Certificate{*s.cert}, ServerName:
    "localhost", MinVersion: tls.VersionTLS12}] *)
Definition listen_config (c : tls_Certificate) : tls_Config :=
  mk_tls_Config [c] "localhost" tls_VersionTLS12.

(** [listenAndServe] in goroutine [g], up to the point where
    [s.server.Serve(listener)] blocks.  [Serve] on a server that is
    already shut down closes the listener and returns
    [http.ErrServerClosed] at once. *)
Definition listenAndServe (g : nat) (w : World) : Outcome :=
  match goroutines w !! g with
  | Some GListen =>
      match cert (srv w) with
      | None => Panic
      | Some c =>
          let cfg := listen_config c in
          let addr := Port (srv w) in
          match tls_Listen addr cfg (network w) with
          | (Err err, _) =>
              let w := log_Error "failed to start server, retrying" (Some err) w in
              let w := set_Port 0 w in
              let '(err, w) := Start w in
              let w := match err with
                       | Some e => log_Error "server start failed, giving up" (Some e) w
                       | None => w
                       end in
              Next (set_goroutine g GDone w)
          | (Ok listener, n) =>
              let w := set_network n w in
              let w := set_Port (Addr_Port listener) w in
              let w := set_run true w in
              match server (srv w) with
              | None => Panic
              | Some h =>
                  match http_servers w !! h with
                  | None => Panic
                  | Some hs =>
                      if inShutdown hs then
                        let w := set_network (net_close (Addr_Port listener) (network w)) w in
                        Next (Serve_returned g ErrServerClosed w)
                      else
                        Next (set_goroutine g (GServing h listener) w)
                  end
              end
          end
      end
  | _ => Blocked
  end.

(** [s.server.Serve(listener)] returns in goroutine [g].  After
    [Shutdown] the error is [http.ErrServerClosed] and the listener is
    closed already; otherwise serving failed with [e], and [Serve]
    closes the listener on its way out. *)
Definition Serve_returns (g : nat) (e : Error) (w : World) : Outcome :=
  match goroutines w !! g with
  | Some (GServing h l) =>
      match http_servers w !! h with
      | None => Blocked
      | Some hs =>
          if inShutdown hs then Next (Serve_returned g ErrServerClosed w)
          else if bool_decide (e = ErrServerClosed) then Blocked
          else
            let w := set_network (net_close (Addr_Port l) (network w)) w in
            Next (Serve_returned g e w)
      end
  | _ => Blocked
  end.

(** The ports of the listeners that goroutines serve on server [h]. *)
Definition listeners_of (h : nat) (gs : list Goroutine) : list Z :=
  omap (fun g => match g with
                 | GServing h' l => if bool_decide (h' = h) then Some (Addr_Port l) else None
                 | _ => None
                 end) gs.

(** [srv.Shutdown(context.Background())]: the first call marks the
    server and closes its listeners; [lnerr] is the error closing them
    reports. *)
Definition Shutdown (h : nat) (lnerr : option Error) (w : World) : option Error * World :=
  match http_servers w !! h with
  | Some hs =>
      if inShutdown hs then (lnerr, w)
      else
        let n := foldr net_close (network w) (listeners_of h (goroutines w)) in
        (lnerr,
         mkWorld (srv w)
                 (<[h := mk_http_Server (http_Handler hs) true]> (http_servers w))
                 (goroutines w) n)
  | None => (lnerr, w)
  end.

Definition Stop (lnerr : option Error) (w : World) : option Error * World :=
  match server (srv w) with
  | Some h => Shutdown h lnerr w
  | None => (None, w)
  end.

Definition ToForeground (w : World) : World :=
  if negb (run (srv w)) && bool_decide (server (srv w) ≠ None) then
    let '(err, w) := Start w in
    match err with
    | Some e => log_Error "server start failed during foreground transition" (Some e) w
    | None => w
    end
  else w.

Definition ToBackground (lnerr : option Error) (w : World) : World :=
  if run (srv w) then
    let '(err, w) := Stop lnerr w in
    match err with
    | Some e => log_Error "server stop failed during background transition" (Some e) w
    | None => w
    end
  else w.

(** What can happen to a server: a call of its API by the embedding
    application, or a goroutine of the listen loop making progress. *)
Inductive Action : Type :=
  | CallStart
  | CallStop (lnerr : option Error)
  | CallToForeground
  | CallToBackground (lnerr : option Error)
  | RunListen (g : nat)
  | ServeReturn (g : nat) (e : Error).

Definition exec (a : Action) (w : World) : Outcome :=
  match a with
  | CallStart => Next (snd (Start w))
  | CallStop lnerr => Next (snd (Stop lnerr w))
  | CallToForeground => Next (ToForeground w)
  | CallToBackground lnerr => Next (ToBackground lnerr w)
  | RunListen g => listenAndServe g w
  | ServeReturn g e => Serve_returns g e w
  end.

Fixpoint run_actions (acts : list Action) (w : World) : Outcome :=
  match acts with
  | [] => Next w
  | a :: acts =>
      match exec a w with
      | Next w' => run_actions acts w'
      | o => o
      end
  end.

(** The bind that [listenAndServe] would attempt in state [w] fails. *)
Definition bind_fails (w : World) : Prop :=
  exists c err n,
    cert (srv w) = Some c /\
    tls_Listen (Port (srv w)) (listen_config c) (network w) = (Err err, n).

Section Constructor.
Context `{Crypto}.

Definition NewServer (db : DB) (logger : Logger) (p : Process)
  : (option Server * option Error) * Process :=
  match generateTLSCert p with
  | (Err err, p') => ((None, Some err), p')
  | (Ok _, p') =>
      ((Some (mkServer 0 false None logger db (globalCertificate p')), None), p')
  end.

End Constructor.

(** The four places where [generateTLSCert] can fail when no
    certificate is cached, in program order. *)
Section GenerationFailures.
Context `{Crypto}.

Inductive generation_fails (p : Process) (e : Error) : Prop :=
  | key_generation_fails r :
      ecdsa_GenerateKey_P256 (rand_Reader p) = (Err e, r) ->
      generation_fails p e
  | x509_template_fails priv r1 r2 :
      ecdsa_GenerateKey_P256 (rand_Reader p) = (Ok priv, r1) ->
      GenerateX509Cert (wall_clock p)
        (Time_Add (wall_clock p) (365 * 24 * Hour)%Z) r1 = (Err e, r2) ->
      generation_fails p e
  | pem_encoding_fails priv r1 c r2 r3 :
      ecdsa_GenerateKey_P256 (rand_Reader p) = (Ok priv, r1) ->
      GenerateX509Cert (wall_clock p)
        (Time_Add (wall_clock p) (365 * 24 * Hour)%Z) r1 = (Ok c, r2) ->
      GenerateX509PEMs c priv r2 = (Err e, r3) ->
      generation_fails p e
  | key_pair_fails priv r1 c r2 certPem keyPem r3 :
      ecdsa_GenerateKey_P256 (rand_Reader p) = (Ok priv, r1) ->
      GenerateX509Cert (wall_clock p)
        (Time_Add (wall_clock p) (365 * 24 * Hour)%Z) r1 = (Ok c, r2) ->
      GenerateX509PEMs c priv r2 = (Ok (certPem, keyPem), r3) ->
      tls_X509KeyPair certPem keyPem = Err e ->
      generation_fails p e.

End GenerationFailures.

(** ** Concrete collaborators and states, for evaluating the model *)

Module Sample.

(** A toy entropy source that holds a number of draws and fails once
    it is exhausted. *)
Definition draw {A} (a : A) (e : nat) : result A * nat :=
  match e with
  | O => (Err (ErrMsg "EOF"), O)
  | S e' => (Ok a, e')
  end.

Definition crypto : Crypto := {|
  ecdsa_PrivateKey := list byte;
  x509_Certificate := Time * Time;
  Entropy := nat;
  ecdsa_GenerateKey_P256 := draw (list_byte_of_string "private key");
  GenerateX509Cert := fun notBefore notAfter => draw (notBefore, notAfter);
  GenerateX509PEMs := fun c priv =>
    draw (list_byte_of_string "-----BEGIN CERTIFICATE-----", priv);
  tls_X509KeyPair := fun certPem keyPem => Ok (mkTLSCert [certPem] keyPem)
|}.

Definition fresh_process (entropy : nat) : @Process crypto :=
  @mkProcess crypto None EmptyString entropy 1700000000000000000%Z.

Definition media : Media := {|
  identicon_Generate := fun pk =>
    if bool_decide (pk = EmptyString) then ([], Some (ErrMsg "png: invalid format"))
    else if bool_decide (pk = "0xtruncated")
         then (list_byte_of_string "PNG", Some (ErrMsg "unexpected EOF"))
         else (list_byte_of_string ("PNG" ++ pk), None);
  images_ImageMime := fun buf =>
    if bool_decide (take 3 buf = list_byte_of_string "PNG") then ("image/png", None)
    else (EmptyString, Some (ErrMsg "image format not supported"));
  Time_AddDate := fun t years months days =>
    (t + (years * 365 + months * 30 + days) * 24 * Hour)%Z;
  Time_Format := fun t layout => layout
|}.

Definition messages : DB :=
  <["m2" := mkMessage [] []]>
    {["m1" := mkMessage (list_byte_of_string "PNG-image")
                        (list_byte_of_string "aac-audio")]}.

Definition blank : ResponseWriter := mkWriter ∅ [] None.

Definition get (path key value : string) : Request :=
  mkRequest path {[key := [value]]}.

Definition certificate : tls_Certificate :=
  mkTLSCert [list_byte_of_string "-----BEGIN CERTIFICATE-----"]
            (list_byte_of_string "private key").

Definition loopback : Net := mkNet {[80%Z]} [49152%Z; 49153%Z].

(** A server as [NewServer] returns it, and the states it goes
    through when it is started and binds port 49152. *)
Definition created : World :=
  mkWorld (mkServer 0 false None [] messages (Some certificate)) [] [] loopback.

Definition started : World := snd (Start created).

Definition serving : World :=
  match listenAndServe 0 started with
  | Next w => w
  | _ => started
  end.

(** The same server, backgrounded, with the listen goroutine
    returned. *)
Definition backgrounded : World :=
  match run_actions [CallToBackground None; ServeReturn 0 ErrServerClosed] serving with
  | Next w => w
  | _ => serving
  end.

(** Port 49152 taken by another process while in the background. *)
Definition squatted : World :=
  set_network (net_bind 49152 (network backgrounded)) (ToForeground backgrounded).

End Sample.

(** ** States the controller can be in *)

(** What every state reached from a constructed server satisfies: the
    certificate is there, the [server] pointer is valid, and a pending
    listen goroutine has a server to serve on (it was spawned by
    [Start], which stores the pointer first). *)
Definition well_formed (w : World) : Prop :=
  is_Some (cert (srv w)) /\
  (forall h : nat, server (srv w) = Some h -> (h < length (http_servers w))%nat) /\
  (GListen ∈ goroutines w -> is_Some (server (srv w))).

(** The state of a process around a server that [NewServer] has just
    returned: no [http.Server], no goroutine. *)
Definition fresh_world (s : Server) (n : Net) : World := mkWorld s [] [] n.

(** No ephemeral port is free. *)
Definition exhausted (n : Net) : Prop :=
  List.find (port_free n) (ephemeral n) = None.

(** The scheduler runs, [k] times in a row, the listen goroutine that
    was spawned last. *)
Fixpoint retry_listen (k : nat) (w : World) : Outcome :=
  match k with
  | O => Next w
  | S k' =>
      match listenAndServe (length (goroutines w) - 1) w with
      | Next w' => retry_listen k' w'
      | o => o
      end
  end.

(** ** What a handler may change *)

(** A handler call that only appends to the log and to the body
    and only sets the listed header keys. *)
Definition extends (keys : list string) (lg : Logger) (w : ResponseWriter)
    (lg' : Logger) (w' : ResponseWriter) : Prop :=
  (exists entries, lg' = lg ++ entries /\ (length entries <= 2)%nat) /\
  (exists bytes, Body w' = Body w ++ bytes) /\
  conn_err w' = conn_err w /\
  (forall k : string, k ∉ keys -> Header w' !! k = Header w !! k).


(** ** Pending sticker packs (package stickers) *)

(** The fields of [Sticker] and [StickerPack] that the functions below
    read or write. *)
Record Sticker : Type := mkSticker {
  Sticker_Hash : string;
  Sticker_URL : string
}.

Record StickerPack : Type := mkStickerPack {
  Status : Z;
  Preview : string;
  Thumbnail : string;
  Stickers : list Sticker
}.

(** [StickerPackCollection] is [map[uint]StickerPack]. *)
Abbreviation StickerPackCollection := (gmap Z StickerPack).

(** [uint(packID.Uint64())] for a [*bigint.BigInt]: [Uint64] returns the
    low 64 bits of the magnitude, and [uint] has 64 bits. *)
Definition pack_key (packID : Z) : Z := (Z.abs packID mod 2 ^ 64)%Z.

(** What the functions use of the rest of the package and of its
    collaborators: the constant [statusPending], [decodeStringHash],
    the contract maker, [fetchPackData], the JSON decoder for a
    collection, and the two accessors of the accounts database for the
    setting [settings.StickersPacksPending]. *)
Class StickersEnv : Type := {
  statusPending : Z;
  decodeStringHash : string -> result string;
  StickerType : Type;
  NewStickerType : Z -> result StickerType;
  fetchPackData : StickerType -> Z -> bool -> result StickerPack;
  json_RawMessage : Type;
  json_Unmarshal : json_RawMessage -> result StickerPackCollection;
  accountsDB : Type;
  GetPendingStickerPacks : accountsDB -> result (option json_RawMessage);
  SaveSettingField_StickersPacksPending :
    StickerPackCollection -> accountsDB -> option Error * accountsDB
}.

Section Stickers.
Context `{StickersEnv}.

Definition pendingStickerPacks (adb : accountsDB) : result StickerPackCollection :=
  match GetPendingStickerPacks adb with
  | Err err => Err err
  | Ok None => Ok ∅
  | Ok (Some pendingStickersJSON) =>
      match json_Unmarshal pendingStickersJSON with
      | Err err => Err err
      | Ok stickerPacks => Ok stickerPacks
      end
  end.

Definition AddPending (chainID : Z) (packID : Z) (adb : accountsDB)
  : option Error * accountsDB :=
  match pendingStickerPacks adb with
  | Err err => (Some err, adb)
  | Ok pendingPacks =>
      match pendingPacks !! pack_key packID with
      | Some _ => (Some (ErrMsg "sticker pack is already pending"), adb)
      | None =>
          match NewStickerType chainID with
          | Err err => (Some err, adb)
          | Ok stickerType =>
              match fetchPackData stickerType packID false with
              | Err err => (Some err, adb)
              | Ok stickerPack =>
                  SaveSettingField_StickersPacksPending
                    (<[pack_key packID := stickerPack]> pendingPacks) adb
              end
          end
      end
  end.

Definition RemovePending (packID : Z) (adb : accountsDB) : option Error * accountsDB :=
  match pendingStickerPacks adb with
  | Err err => (Some err, adb)
  | Ok pendingPacks =>
      match pendingPacks !! pack_key packID with
      | None => (None, adb)
      | Some _ =>
          SaveSettingField_StickersPacksPending
            (delete (pack_key packID) pendingPacks) adb
      end
  end.

(** The inner loop of [Pending]: every sticker gets the decoded form
    of its hash as URL. *)
Fixpoint decode_stickers (stickers : list Sticker) : result (list Sticker) :=
  match stickers with
  | [] => Ok []
  | sticker :: stickers' =>
      match decodeStringHash (Sticker_Hash sticker) with
      | Err err => Err err
      | Ok url =>
          match decode_stickers stickers' with
          | Err err => Err err
          | Ok decoded => Ok (mkSticker (Sticker_Hash sticker) url :: decoded)
          end
      end
  end.

(** The body of the outer loop of [Pending], for one pack. *)
Definition decode_pack (stickerPack : StickerPack) : result StickerPack :=
  match decodeStringHash (Preview stickerPack) with
  | Err err => Err err
  | Ok preview =>
      match decodeStringHash (Thumbnail stickerPack) with
      | Err err => Err err
      | Ok thumbnail =>
          match decode_stickers (Stickers stickerPack) with
          | Err err => Err err
          | Ok stickers => Ok (mkStickerPack statusPending preview thumbnail stickers)
          end
      end
  end.

(** The outer loop over the entries of the map.  Go visits them in an
    unspecified order; here the order is that of [map_to_list]. *)
Fixpoint decode_packs (entries : list (Z * StickerPack))
  : result (list (Z * StickerPack)) :=
  match entries with
  | [] => Ok []
  | (packID, stickerPack) :: entries' =>
      match decode_pack stickerPack with
      | Err err => Err err
      | Ok decoded =>
          match decode_packs entries' with
          | Err err => Err err
          | Ok rest => Ok ((packID, decoded) :: rest)
          end
      end
  end.

Definition Pending (adb : accountsDB) : result StickerPackCollection :=
  match pendingStickerPacks adb with
  | Err err => Err err
  | Ok stickerPacks =>
      match decode_packs (map_to_list stickerPacks) with
      | Err err => Err err
      | Ok entries => Ok (list_to_map entries)
      end
  end.

(** The accounts database gives back what was saved last. *)
Definition store_round_trips : Prop :=
  forall (packs : StickerPackCollection) (adb adb' : accountsDB),
    SaveSettingField_StickersPacksPending packs adb = (None, adb') ->
    pendingStickerPacks adb' = Ok packs.

(** The hashes that [Pending] decodes for one pack. *)
Definition pack_hashes (stickerPack : StickerPack) : list string :=
  Preview stickerPack :: Thumbnail stickerPack
    :: map Sticker_Hash (Stickers stickerPack).

End Stickers.

(** ** Further concrete states and collaborators *)

Module Scenario.

(** The server of [Sample] as [NewServer] returns it. *)
Definition constructed : Server :=
  mkServer 0 false None [] Sample.messages (Some Sample.certificate).

(** The backgrounded server brought to the foreground while every
    port the operating system could hand out is taken. *)
Definition jammed : World :=
  set_network (mkNet {[80%Z; 49152%Z; 49153%Z]} [49152%Z; 49153%Z])
    (ToForeground Sample.backgrounded).

(** A message whose stored image the sniffer does not recognise. *)
Definition odd_messages : DB :=
  {["m3" := mkMessage (list_byte_of_string "GIF89a") []]}.

(** A response writer that already carries a header and some bytes,
    on a connection that the peer has closed. *)
Definition used : ResponseWriter :=
  mkWriter {["Vary" := ["Origin"]]} (list_byte_of_string "x")
           (Some (ErrMsg "write: broken pipe")).

(** A sticker environment: hashes decode unless they are empty, only
    chain 1 has a sticker contract, every pack on it has two stickers,
    and the accounts database is the last collection saved (or the
    error it answers reads with). *)
Definition stickers : StickersEnv := {|
  statusPending := 2;
  decodeStringHash := fun hash =>
    if bool_decide (hash = EmptyString) then Err (ErrMsg "invalid hash")
    else Ok ("ipfs/" ++ hash)%string;
  StickerType := Z;
  NewStickerType := fun chainID =>
    if bool_decide (chainID = 1%Z) then Ok 1%Z
    else Err (ErrMsg "no sticker contract on this chain");
  fetchPackData := fun _ packID _ =>
    Ok (mkStickerPack 0 "e301p" "e301t"
          [mkSticker "e3011" EmptyString; mkSticker "e3012" EmptyString]);
  json_RawMessage := StickerPackCollection;
  json_Unmarshal := fun raw => Ok raw;
  accountsDB := result (option StickerPackCollection);
  GetPendingStickerPacks := fun adb => adb;
  SaveSettingField_StickersPacksPending := fun packs _ => (None, Ok (Some packs))
|}.

Definition empty_settings : @accountsDB stickers := Ok None.

Definition closed_settings : @accountsDB stickers :=
  Err (ErrMsg "sql: database is closed").

(** Settings in which pack 7 is pending. *)
Definition settings_with_7 : @accountsDB stickers :=
  snd (@AddPending stickers 1 7 empty_settings).

(** Settings with a pending pack one of whose stickers has no hash. *)
Definition broken_settings : @accountsDB stickers :=
  Ok (Some {[9%Z := mkStickerPack 0 "e301p" "e301t" [mkSticker EmptyString EmptyString]]}).

End Scenario.

(** * Properties *)

(** ** Certificate provider *)

Section CertificateFacts.
Context `{Crypto}.

Lemma generateTLSCert_cached (p : Process) (c : tls_Certificate) :
  globalCertificate p = Some c -> generateTLSCert p = (Ok tt, p).
Proof. intros Hc. unfold generateTLSCert. now rewrite Hc. Qed.

Lemma PublicTLSCert_cached (p : Process) (c : tls_Certificate) :
  globalCertificate p = Some c -> PublicTLSCert p = ((globalPem p, None), p).
Proof.
  intros Hc. unfold PublicTLSCert. now rewrite (generateTLSCert_cached p c Hc).
Qed.

(** A successful call always leaves a certificate behind. *)
Lemma generateTLSCert_Ok_cached (p p' : Process) (u : unit) :
  generateTLSCert p = (Ok u, p') -> is_Some (globalCertificate p').
Proof.
  unfold generateTLSCert.
  destruct (globalCertificate p) as [c|] eqn:Hc.
  - intros [= <- <-]. rewrite Hc. eauto.
  - unfold mbind, Gen_bind, gen_bind, with_rand, time_Now, gen_lift, store_globals.
    destruct (ecdsa_GenerateKey_P256 _) as [[priv|e] r1]; [|discriminate].
    cbn.
    destruct (GenerateX509Cert _ _ _) as [[crt|e] r2]; [|discriminate].
    cbn.
    destruct (GenerateX509PEMs _ _ _) as [[[certPem keyPem]|e] r3]; [|discriminate].
    cbn.
    destruct (tls_X509KeyPair _ _) as [fc|e]; [|discriminate].
    intros [= <- <-]. cbn. eauto.
Qed.

(** When generation fails, the error comes out of [generateTLSCert]
    and nothing is cached. *)
Lemma generateTLSCert_fails (p : Process) (e : Error) :
  globalCertificate p = None -> generation_fails p e ->
  exists p', generateTLSCert p = (Err e, p') /\ globalCertificate p' = None.
Proof.
  intros Hc Hf. unfold generateTLSCert. rewrite Hc.
  unfold mbind, Gen_bind, gen_bind, with_rand, time_Now, gen_lift, store_globals.
  destruct Hf as [r Hk | priv r1 r2 Hk Hx | priv r1 c r2 r3 Hk Hx Hp
                 | priv r1 c r2 certPem keyPem r3 Hk Hx Hp Hkp].
  - rewrite Hk. cbn. eauto.
  - rewrite Hk. cbn. rewrite Hx. cbn. eauto.
  - rewrite Hk. cbn. rewrite Hx. cbn. rewrite Hp. cbn. eauto.
  - rewrite Hk. cbn. rewrite Hx. cbn. rewrite Hp. cbn. rewrite Hkp. eauto.
Qed.

(** Claim C3.  Certificate generation is idempotent.  In a process
    state that already holds certificate material, [generateTLSCert]
    succeeds and leaves the whole state as it was (the cached
    certificate and PEM, and also the entropy source: nothing is
    generated again), and [PublicTLSCert] returns the cached PEM.
    Hence after a first successful call, a second call, whatever the
    entropy source and the clock have become, returns the same
    certificate and the same PEM. *)
Theorem generateTLSCert_idempotent :
  (forall (p : Process) (c : tls_Certificate),
      globalCertificate p = Some c ->
      generateTLSCert p = (Ok tt, p) /\
      PublicTLSCert p = ((globalPem p, None), p)) /\
  (forall (p0 p1 : Process) (u : unit) (e : Entropy) (t : Time),
      generateTLSCert p0 = (Ok u, p1) ->
      let p1' := mkProcess (globalCertificate p1) (globalPem p1) e t in
      generateTLSCert p1' = (Ok tt, p1') /\
      PublicTLSCert p1' = ((globalPem p1, None), p1') /\
      fst (PublicTLSCert p1) = (globalPem p1, None) /\
      globalCertificate (snd (generateTLSCert p1')) = globalCertificate p1 /\
      globalCertificate p1 <> None).
Proof.
  split.
  - intros p c Hc. split.
    + exact (generateTLSCert_cached p c Hc).
    + exact (PublicTLSCert_cached p c Hc).
  - intros p0 p1 u e t Hgen p1'.
    destruct (generateTLSCert_Ok_cached p0 p1 u Hgen) as [c Hc].
    assert (Hc' : globalCertificate p1' = Some c) by exact Hc.
    rewrite (generateTLSCert_cached p1' c Hc').
    rewrite (PublicTLSCert_cached p1' c Hc').
    rewrite (PublicTLSCert_cached p1 c Hc).
    repeat split; try reflexivity. rewrite Hc. discriminate.
Qed.

(** Claim C4.  Every certificate-generation error reaches the caller
    of the constructor [NewServer], the entry point that asks for the
    certificate: whichever of the four generation steps fails with
    [e], [NewServer] returns [e] and no server (so there is nothing
    to start), and no certificate is cached.  More generally
    [NewServer] returns exactly the error of [generateTLSCert], and
    a server it does return carries a certificate. *)
Theorem NewServer_propagates_generation_error
    (db : DB) (logger : Logger) (p : Process) (e : Error) :
  globalCertificate p = None ->
  generation_fails p e ->
  (exists p', NewServer db logger p = ((None, Some e), p') /\
              globalCertificate p' = None) /\
  (forall (q q' : Process) (e' : Error),
      generateTLSCert q = (Err e', q') ->
      NewServer db logger q = ((None, Some e'), q')) /\
  (forall (q q' : Process) (s : Server) (err : option Error),
      NewServer db logger q = ((Some s, err), q') ->
      err = None /\ cert s <> None /\ cert s = globalCertificate q').
Proof.
  intros Hc Hf. split; [|split].
  - destruct (generateTLSCert_fails p e Hc Hf) as (p' & Hg & Hn).
    exists p'. unfold NewServer. rewrite Hg. auto.
  - intros q q' e' Hg. unfold NewServer. now rewrite Hg.
  - intros q q' s err. unfold NewServer.
    destruct (generateTLSCert q) as [[u|e'] q''] eqn:Hg; [|discriminate].
    intros [= <- <- <-]. cbn.
    destruct (generateTLSCert_Ok_cached q q'' u Hg) as [c Hc'].
    rewrite Hc'. repeat split; discriminate.
Qed.

End CertificateFacts.

Lemma generateTLSCert_idempotent_witness :
  let p1 := snd (generateTLSCert (Sample.fresh_process 3)) in
  globalCertificate p1 = Some Sample.certificate /\
  generateTLSCert p1 = (Ok tt, p1) /\
  PublicTLSCert (@mkProcess Sample.crypto (globalCertificate p1) (globalPem p1) 0%nat 0%Z)
  = (("-----BEGIN CERTIFICATE-----", None),
     @mkProcess Sample.crypto (globalCertificate p1) (globalPem p1) 0%nat 0%Z).
Proof.
  cbv zeta. split; [reflexivity|]. split.
  - apply (proj1 (@generateTLSCert_idempotent Sample.crypto) _ Sample.certificate).
    reflexivity.
  - exact (proj1 (proj2 (proj2 (@generateTLSCert_idempotent Sample.crypto)
                            (Sample.fresh_process 3) _ tt 0%nat 0%Z eq_refl))).
Defined.

Lemma NewServer_propagates_generation_error_witness :
  exists p', NewServer Sample.messages [] (Sample.fresh_process 0)
             = ((None, Some (ErrMsg "EOF")), p') /\
             globalCertificate p' = None.
Proof.
  apply (@NewServer_propagates_generation_error Sample.crypto
           Sample.messages [] (Sample.fresh_process 0) (ErrMsg "EOF")).
  - reflexivity.
  - apply (@key_generation_fails Sample.crypto _ _ 0%nat). reflexivity.
Defined.

(** ** Resource handlers *)

Lemma map_index_present (m : Values) (k : string) (vs : list string) :
  m !! k = Some vs -> map_index m k = (vs, true).
Proof. intros Hk. unfold map_index. now rewrite Hk. Qed.

Lemma map_index_absent (m : Values) (k : string) :
  m !! k = None -> map_index m k = ([], false).
Proof. intros Hk. unfold map_index. now rewrite Hk. Qed.

Lemma length_eqb_0_cons {A} (x : A) (l : list A) : (length (x :: l) =? 0)%nat = false.
Proof. reflexivity. Qed.

Lemma length_eqb_0_nonempty {A} (l : list A) : l <> [] -> (length l =? 0)%nat = false.
Proof. destruct l; [congruence | reflexivity]. Qed.

(** Setting two or three distinct header keys and reading them back. *)
Lemma Header_Set_lookup_eq (k v : string) (w : ResponseWriter) :
  Header (Header_Set k v w) !! k = Some [v].
Proof. unfold Header_Set. cbn. apply lookup_insert_eq. Qed.

Lemma Header_Set_lookup_ne (k k' v : string) (w : ResponseWriter) :
  k <> k' -> Header (Header_Set k v w) !! k' = Header w !! k'.
Proof. intros Hne. unfold Header_Set. cbn. now apply lookup_insert_ne. Qed.

Lemma Header_Set_Body (k v : string) (w : ResponseWriter) :
  Body (Header_Set k v w) = Body w.
Proof. reflexivity. Qed.

Lemma Write_Header (p : list byte) (w : ResponseWriter) :
  Header (snd (Write p w)) = Header w.
Proof. reflexivity. Qed.

Lemma Write_Body (p : list byte) (w : ResponseWriter) :
  Body (snd (Write p w)) = Body w ++ p.
Proof. reflexivity. Qed.

(** Claim C5 as stated, that every response from /messages/audio carries
    Content-Type: audio/aac and Cache-Control: no-store, does not hold
    of the handler: for a message whose stored audio is empty it
    returns before any header is set. *)
Lemma audio_response_without_headers :
  ~ (forall (s : audioHandler) (lg : Logger) (w : ResponseWriter) (r : Request),
        exists lg' w',
          audioHandler_ServeHTTP s lg w r = Some (lg', w') /\
          Header w' !! "Content-Type" = Some ["audio/aac"] /\
          Header w' !! "Cache-Control" = Some ["no-store"]).
Proof.
  intros Hall.
  destruct (Hall (mk_audioHandler Sample.messages) [] Sample.blank
                 (Sample.get "/messages/audio" "messageId" "m2"))
    as (lg' & w' & Hrun & Hct & _).
  vm_compute in Hrun. injection Hrun as _ <-.
  vm_compute in Hct. discriminate.
Qed.

(** Claim C5, amended.  When [messageId] is present, its row exists and
    the stored audio is not empty, the response carries
    Content-Type: audio/aac and Cache-Control: no-store and the stored
    bytes, whatever these bytes are; in every other case the handler
    returns with the response writer untouched, so without these
    headers. *)
Theorem audioHandler_fixed_content_type
    (s : audioHandler) (lg : Logger) (w : ResponseWriter) (r : Request) :
  (forall (messageID : string) (rest : list string) (row : user_message),
      URL_Query r !! "messageId" = Some (messageID :: rest) ->
      audioHandler_db s !! messageID = Some row ->
      audio_payload row <> [] ->
      exists lg' w',
        audioHandler_ServeHTTP s lg w r = Some (lg', w') /\
        Header w' !! "Content-Type" = Some ["audio/aac"] /\
        Header w' !! "Cache-Control" = Some ["no-store"] /\
        Body w' = Body w ++ audio_payload row) /\
  ((URL_Query r !! "messageId" = None \/
    URL_Query r !! "messageId" = Some [] \/
    (exists messageID rest,
        URL_Query r !! "messageId" = Some (messageID :: rest) /\
        (audioHandler_db s !! messageID = None \/
         exists row, audioHandler_db s !! messageID = Some row /\
                     audio_payload row = []))) ->
   exists lg', audioHandler_ServeHTTP s lg w r = Some (lg', w)).
Proof.
  split.
  - intros messageID rest row Hq Hrow Hne.
    unfold audioHandler_ServeHTTP.
    rewrite (map_index_present _ _ _ Hq). cbn.
    unfold QueryRow_Scan. rewrite Hrow.
    rewrite (length_eqb_0_nonempty _ Hne).
    eexists _, _. split; [reflexivity|]. cbn.
    split; [|split; [|reflexivity]].
    + rewrite lookup_insert_ne by discriminate. apply lookup_insert_eq.
    + apply lookup_insert_eq.
  - intros [Hq | [Hq | (messageID & rest & Hq & Hdb)]];
      unfold audioHandler_ServeHTTP.
    + rewrite (map_index_absent _ _ Hq). cbn. eauto.
    + rewrite (map_index_present _ _ _ Hq). cbn. eauto.
    + rewrite (map_index_present _ _ _ Hq). cbn. unfold QueryRow_Scan.
      destruct Hdb as [Hnone | (row & Hrow & Hempty)].
      * rewrite Hnone. eauto.
      * rewrite Hrow, Hempty. cbn. eauto.
Qed.

Lemma audioHandler_fixed_content_type_witness :
  exists lg' w',
    audioHandler_ServeHTTP (mk_audioHandler Sample.messages) [] Sample.blank
      (Sample.get "/messages/audio" "messageId" "m1") = Some (lg', w') /\
    Header w' !! "Content-Type" = Some ["audio/aac"] /\
    Header w' !! "Cache-Control" = Some ["no-store"] /\
    Body w' = Body Sample.blank ++ list_byte_of_string "aac-audio".
Proof.
  apply (proj1 (audioHandler_fixed_content_type (mk_audioHandler Sample.messages) []
                  Sample.blank (Sample.get "/messages/audio" "messageId" "m1"))
           "m1" []
           (mkMessage (list_byte_of_string "PNG-image") (list_byte_of_string "aac-audio"))).
  - vm_compute. reflexivity.
  - vm_compute. reflexivity.
  - discriminate.
Defined.

Section HandlerFacts.
Context `{Media}.

(** Claim C6.  For a request to the image handler whose [messageId]
    is present: when the row is missing or the stored image is empty
    the handler returns with the response writer untouched (no header,
    no body); otherwise it sets Content-Type to what the MIME sniffer
    returns for the stored bytes, sets Cache-Control: no-store, and
    hands exactly the stored bytes to [Write]. *)
Theorem imageHandler_serves_stored_image
    (s : imageHandler) (lg : Logger) (w : ResponseWriter) (r : Request)
    (messageID : string) (rest : list string) :
  URL_Query r !! "messageId" = Some (messageID :: rest) ->
  ((imageHandler_db s !! messageID = None \/
    (exists row, imageHandler_db s !! messageID = Some row /\
                 image_payload row = [])) ->
   exists lg', imageHandler_ServeHTTP s lg w r = Some (lg', w)) /\
  (forall row : user_message,
      imageHandler_db s !! messageID = Some row ->
      image_payload row <> [] ->
      exists lg' w',
        imageHandler_ServeHTTP s lg w r = Some (lg', w') /\
        Header w' !! "Content-Type" = Some [fst (images_ImageMime (image_payload row))] /\
        Header w' !! "Cache-Control" = Some ["no-store"] /\
        Body w' = Body w ++ image_payload row).
Proof.
  intros Hq. split.
  - intros Hdb. unfold imageHandler_ServeHTTP.
    rewrite (map_index_present _ _ _ Hq). cbn. unfold QueryRow_Scan.
    destruct Hdb as [Hnone | (row & Hrow & Hempty)].
    + rewrite Hnone. eauto.
    + rewrite Hrow, Hempty. cbn. eauto.
  - intros row Hrow Hne. unfold imageHandler_ServeHTTP.
    rewrite (map_index_present _ _ _ Hq). cbn. unfold QueryRow_Scan.
    rewrite Hrow. rewrite (length_eqb_0_nonempty _ Hne).
    destruct (images_ImageMime (image_payload row)) as [mime err]. cbn.
    eexists _, _. split; [reflexivity|]. cbn.
    split; [|split; [|reflexivity]].
    + rewrite lookup_insert_ne by discriminate. apply lookup_insert_eq.
    + apply lookup_insert_eq.
Qed.


(** Claim C8.  A request without the required query parameter
    (absent, or present with no value) makes each of the three
    handlers return normally, having logged the fact and left the
    response writer as it was: no header, no body and no panic. *)
Theorem handlers_ignore_request_without_parameter
    (ih : imageHandler) (ah : audioHandler) (idh : identiconHandler)
    (now : Time) (lg : Logger) (w : ResponseWriter) (r : Request) :
  ((URL_Query r !! "messageId" = None \/ URL_Query r !! "messageId" = Some []) ->
   imageHandler_ServeHTTP ih lg w r = Some (lg ++ [mkLog "no messageID" None], w) /\
   audioHandler_ServeHTTP ah lg w r = Some (lg ++ [mkLog "no messageID" None], w)) /\
  ((URL_Query r !! "publicKey" = None \/ URL_Query r !! "publicKey" = Some []) ->
   identiconHandler_ServeHTTP idh now lg w r
   = Some (lg ++ [mkLog "no publicKey" None], w)).
Proof.
  split.
  - intros [Hq | Hq]; unfold imageHandler_ServeHTTP, audioHandler_ServeHTTP.
    + rewrite (map_index_absent _ _ Hq). split; reflexivity.
    + rewrite (map_index_present _ _ _ Hq). split; reflexivity.
  - intros [Hq | Hq]; unfold identiconHandler_ServeHTTP.
    + now rewrite (map_index_absent _ _ Hq).
    + now rewrite (map_index_present _ _ _ Hq).
Qed.

(** The guard on the parameter is what keeps the index [[0]] in
    range: no handler panics, on any request. *)
Lemma handlers_never_panic
    (ih : imageHandler) (ah : audioHandler) (idh : identiconHandler)
    (now : Time) (lg : Logger) (w : ResponseWriter) (r : Request) :
  is_Some (imageHandler_ServeHTTP ih lg w r) /\
  is_Some (audioHandler_ServeHTTP ah lg w r) /\
  is_Some (identiconHandler_ServeHTTP idh now lg w r).
Proof.
  unfold imageHandler_ServeHTTP, audioHandler_ServeHTTP,
    identiconHandler_ServeHTTP, map_index, QueryRow_Scan.
  repeat split.
  - destruct (URL_Query r !! "messageId") as [[|m ms]|]; cbn; eauto.
    destruct (imageHandler_db ih !! m) as [row|]; eauto.
    destruct (image_payload row); cbn; eauto.
    destruct (images_ImageMime _); eauto.
  - destruct (URL_Query r !! "messageId") as [[|m ms]|]; cbn; eauto.
    destruct (audioHandler_db ah !! m) as [row|]; eauto.
    destruct (audio_payload row); cbn; eauto.
  - destruct (URL_Query r !! "publicKey") as [[|m ms]|]; cbn; eauto.
    destruct (identicon_Generate m); eauto.
Qed.

End HandlerFacts.

Lemma imageHandler_serves_stored_image_witness :
  exists lg' w',
    @imageHandler_ServeHTTP Sample.media (mk_imageHandler Sample.messages) []
      Sample.blank (Sample.get "/messages/images" "messageId" "m1") = Some (lg', w') /\
    Header w' !! "Content-Type" = Some ["image/png"] /\
    Header w' !! "Cache-Control" = Some ["no-store"] /\
    Body w' = list_byte_of_string "PNG-image".
Proof.
  apply (proj2 (@imageHandler_serves_stored_image Sample.media
                  (mk_imageHandler Sample.messages) [] Sample.blank
                  (Sample.get "/messages/images" "messageId" "m1") "m1" []
                  ltac:(vm_compute; reflexivity))
           (mkMessage (list_byte_of_string "PNG-image") (list_byte_of_string "aac-audio"))).
  - vm_compute. reflexivity.
  - discriminate.
Defined.



Lemma handlers_ignore_request_without_parameter_witness :
  @imageHandler_ServeHTTP Sample.media (mk_imageHandler Sample.messages) []
    Sample.blank (mkRequest "/messages/images" ∅)
  = Some ([mkLog "no messageID" None], Sample.blank) /\
  @identiconHandler_ServeHTTP Sample.media mk_identiconHandler 0%Z []
    Sample.blank (mkRequest "/messages/identicons" {["publicKey" := []]})
  = Some ([mkLog "no publicKey" None], Sample.blank).
Proof.
  split.
  - apply (proj1 (@handlers_ignore_request_without_parameter Sample.media
                    (mk_imageHandler Sample.messages) (mk_audioHandler Sample.messages)
                    mk_identiconHandler 0%Z [] Sample.blank
                    (mkRequest "/messages/images" ∅))).
    left. vm_compute. reflexivity.
  - apply (proj2 (@handlers_ignore_request_without_parameter Sample.media
                    (mk_imageHandler Sample.messages) (mk_audioHandler Sample.messages)
                    mk_identiconHandler 0%Z [] Sample.blank
                    (mkRequest "/messages/identicons" {["publicKey" := []]}))).
    right. vm_compute. reflexivity.
Defined.

(** ** Listener and lifecycle controller *)

(** [Start] allocates a server, stores its pointer and spawns the
    listen goroutine; it touches nothing else. *)
Lemma Start_unfold (w : World) :
  Start w =
  (None,
   mkWorld
     (mkServer (Port (srv w)) (run (srv w)) (Some (length (http_servers w)))
               (logger (srv w)) (db (srv w)) (cert (srv w)))
     (http_servers w ++
        [mk_http_Server
           (<["/messages/identicons" := HIdenticon mk_identiconHandler]>
              (<["/messages/audio" := HAudio (mk_audioHandler (db (srv w)))]>
                 (<["/messages/images" := HImage (mk_imageHandler (db (srv w)))]> ∅)))
           false])
     (goroutines w ++ [GListen])
     (network w)).
Proof. reflexivity. Qed.

Lemma Shutdown_srv (h : nat) (lnerr : option Error) (w : World) :
  srv (snd (Shutdown h lnerr w)) = srv w /\
  goroutines (snd (Shutdown h lnerr w)) = goroutines w /\
  fst (Shutdown h lnerr w) = lnerr.
Proof.
  unfold Shutdown. destruct (http_servers w !! h) as [hs|]; [|auto].
  destruct (inShutdown hs); auto.
Qed.

Lemma Stop_Port (lnerr : option Error) (w : World) :
  Port (srv (snd (Stop lnerr w))) = Port (srv w).
Proof.
  unfold Stop. destruct (server (srv w)) as [h|]; [|reflexivity].
  now rewrite (proj1 (Shutdown_srv h lnerr w)).
Qed.

Lemma ToBackground_Port (lnerr : option Error) (w : World) :
  Port (srv (ToBackground lnerr w)) = Port (srv w).
Proof.
  unfold ToBackground. destruct (run (srv w)); [|reflexivity].
  pose proof (Stop_Port lnerr w) as HP.
  destruct (Stop lnerr w) as [[e|] w']; cbn in *; exact HP.
Qed.

Lemma ToForeground_Port (w : World) :
  Port (srv (ToForeground w)) = Port (srv w).
Proof.
  unfold ToForeground.
  destruct (negb (run (srv w)) && bool_decide (server (srv w) ≠ None)); reflexivity.
Qed.

Lemma Serve_returned_Port (g : nat) (err : Error) (w : World) :
  Port (srv (Serve_returned g err w)) = Port (srv w).
Proof. unfold Serve_returned. case_bool_decide; reflexivity. Qed.

Lemma Serve_returns_Port (g : nat) (e : Error) (w w' : World) :
  Serve_returns g e w = Next w' -> Port (srv w') = Port (srv w).
Proof.
  unfold Serve_returns.
  destruct (goroutines w !! g) as [[|h l|]|]; try discriminate.
  destruct (http_servers w !! h) as [hs|]; try discriminate.
  destruct (inShutdown hs).
  - intros [= <-]. apply Serve_returned_Port.
  - case_bool_decide; [discriminate|].
    intros [= <-]. now rewrite Serve_returned_Port.
Qed.

(** Binding a given non-zero port yields a listener on that very port. *)
Lemma tls_Listen_same_port (port : Z) (cfg : tls_Config) (n n' : Net) (l : Listener) :
  port <> 0%Z -> tls_Listen port cfg n = (Ok l, n') -> Addr_Port l = port.
Proof.
  intros Hnz. unfold tls_Listen.
  destruct ((port <? 0)%Z || (65535 <? port)%Z); [discriminate|].
  destruct (port =? 0)%Z eqn:H0; [apply Z.eqb_eq in H0; contradiction|].
  case_bool_decide; [discriminate|].
  now intros [= <- _].
Qed.

Lemma tls_Listen_free (port : Z) (cfg : tls_Config) (n : Net) :
  (0 < port <= 65535)%Z -> port ∉ in_use n ->
  tls_Listen port cfg n = (Ok (mkListener port cfg), net_bind port n).
Proof.
  intros [Hlo Hhi] Hfree. unfold tls_Listen.
  replace (port <? 0)%Z with false by (symmetry; apply Z.ltb_ge; lia).
  replace (65535 <? port)%Z with false by (symmetry; apply Z.ltb_ge; lia).
  replace (port =? 0)%Z with false by (symmetry; apply Z.eqb_neq; lia).
  cbn. now rewrite bool_decide_eq_false_2.
Qed.

(** What [listenAndServe] does to the remembered port, by the outcome
    of the bind it attempts on that port. *)
Lemma listenAndServe_Port (g : nat) (w w' : World) :
  listenAndServe g w = Next w' ->
  exists c : tls_Certificate,
    goroutines w !! g = Some GListen /\
    cert (srv w) = Some c /\
    let cfg := listen_config c in
    ((exists err n, tls_Listen (Port (srv w)) cfg (network w) = (Err err, n) /\
                    Port (srv w') = 0%Z) \/
     (exists l n, tls_Listen (Port (srv w)) cfg (network w) = (Ok l, n) /\
                  Port (srv w') = Addr_Port l)).
Proof.
  unfold listenAndServe.
  destruct (goroutines w !! g) as [[| |]|]; try discriminate.
  destruct (cert (srv w)) as [c|]; [|discriminate].
  intros Hrun. exists c. split; [reflexivity|]. split; [reflexivity|]. cbv zeta.
  destruct (tls_Listen _ _ _) as [[l|err] n].
  - right. exists l, n. split; [reflexivity|].
    cbn in Hrun.
    destruct (server (srv w)) as [h|]; [|discriminate].
    destruct (http_servers w !! h) as [hs|]; [|discriminate].
    destruct (inShutdown hs); injection Hrun as <-; reflexivity.
  - left. exists err, n. split; [reflexivity|].
    injection Hrun as <-. reflexivity.
Qed.

(** One step of the system keeps a remembered non-zero port, unless
    the step is a listen goroutine whose bind on that port fails. *)
Lemma exec_Port (a : Action) (w w' : World) :
  Port (srv w) <> 0%Z ->
  exec a w = Next w' ->
  Port (srv w') = Port (srv w) \/
  (Port (srv w') = 0%Z /\ (exists g, a = RunListen g) /\ bind_fails w).
Proof.
  intros Hnz. destruct a as [| lnerr | | lnerr | g | g e]; cbn [exec].
  - intros [= <-]. left. reflexivity.
  - intros [= <-]. left. apply Stop_Port.
  - intros [= <-]. left. apply ToForeground_Port.
  - intros [= <-]. left. apply ToBackground_Port.
  - intros Hrun.
    destruct (listenAndServe_Port g w w' Hrun) as (c & _ & Hc & Hcases).
    cbv zeta in Hcases.
    destruct Hcases as [(err & n & Hl & HP) | (l & n & Hl & HP)].
    + right. split; [exact HP|]. split; [eauto|]. exists c, err, n. auto.
    + left. rewrite HP. eapply tls_Listen_same_port; eauto.
  - intros Hrun. left. eapply Serve_returns_Port; eauto.
Qed.

(** Along any run, the remembered port is still the one bound first
    unless a bind on it failed on the way. *)
Lemma run_actions_Port (acts : list Action) (w w' : World) :
  Port (srv w) <> 0%Z ->
  run_actions acts w = Next w' ->
  Port (srv w') = Port (srv w) \/
  (exists acts1 g acts2 w1,
      acts = acts1 ++ RunListen g :: acts2 /\
      run_actions acts1 w = Next w1 /\
      Port (srv w1) = Port (srv w) /\
      bind_fails w1).
Proof.
  revert w. induction acts as [|a acts IH]; intros w Hnz; cbn.
  - intros [= <-]. now left.
  - destruct (exec a w) as [w1| |] eqn:Hstep; try discriminate.
    intros Hrest.
    destruct (exec_Port a w w1 Hnz Hstep) as [Hsame | (_ & (g & ->) & Hfail)].
    + assert (Hnz1 : Port (srv w1) <> 0%Z) by now rewrite Hsame.
      destruct (IH w1 Hnz1 Hrest)
        as [Hend | (acts1 & g & acts2 & w2 & -> & Hpre & HP & Hfail)].
      * left. now rewrite Hend.
      * right. exists (a :: acts1), g, acts2, w2.
        split; [reflexivity|]. split; [cbn; now rewrite Hstep|].
        split; [now rewrite HP | exact Hfail].
    + right. exists [], g, acts, w. auto.
Qed.

(** A settled background-then-foreground cycle of a server that
    serves on [P]: background, the listen goroutine returns, foreground,
    and the new listen goroutine runs while [P] is free. *)
Lemma foreground_cycle (w : World) (P : Z) (g h : nat) (l : Listener)
    (hs : http_Server) (c : tls_Certificate) (lnerr : option Error) (e : Error) :
  Port (srv w) = P ->
  (0 < P <= 65535)%Z ->
  run (srv w) = true ->
  cert (srv w) = Some c ->
  server (srv w) = Some h ->
  http_servers w !! h = Some hs ->
  inShutdown hs = false ->
  goroutines w !! g = Some (GServing h l) ->
  exists w3,
    run_actions [CallToBackground lnerr; ServeReturn g e; CallToForeground] w = Next w3 /\
    Port (srv w3) = P /\
    run (srv w3) = false /\
    forall n : Net,
      P ∉ in_use n ->
      exists w4,
        listenAndServe (length (goroutines w)) (set_network n w3) = Next w4 /\
        Port (srv w4) = P /\
        run (srv w4) = true /\
        goroutines w4 !! length (goroutines w)
        = Some (GServing (length (http_servers w)) (mkListener P (listen_config c))) /\
        P ∈ in_use (network w4).
Proof.
  intros HP Hrange Hrun Hcert Hsrv Hhs Hopen Hg.
  destruct w as [[port r sv lg d ct] hss gs n0]. cbn in *. subst.
  assert (Hh : (h < length hss)%nat) by (eapply lookup_lt_Some; eauto).
  assert (Hgl : (g < length gs)%nat) by (eapply lookup_lt_Some; eauto).
  set (lg1 := log_if_err "server stop failed during background transition" lnerr lg).
  set (hss1 := <[h:=mk_http_Server (http_Handler hs) true]> hss).
  set (n1 := foldr net_close n0 (listeners_of h gs)).
  assert (Hstep1 :
    ToBackground lnerr (mkWorld (mkServer P true (Some h) lg d (Some c)) hss gs n0)
    = mkWorld (mkServer P true (Some h) lg1 d (Some c)) hss1 gs n1).
  { unfold ToBackground, Stop, Shutdown. cbn. rewrite Hhs, Hopen.
    destruct lnerr; reflexivity. }
  assert (Hstep2 :
    Serve_returns g e (mkWorld (mkServer P true (Some h) lg1 d (Some c)) hss1 gs n1)
    = Next (mkWorld (mkServer P false (Some h) lg1 d (Some c)) hss1 (<[g:=GDone]> gs) n1)).
  { unfold Serve_returns. cbn. rewrite Hg. unfold hss1.
    rewrite list_lookup_insert_eq by exact Hh. reflexivity. }
  cbn [run_actions exec]. rewrite Hstep1, Hstep2.
  eexists. split; [reflexivity|]. unfold ToForeground. cbn.
  split; [reflexivity|]. split; [reflexivity|].
  intros n Hfree. unfold listenAndServe. cbn.
  assert (Hlast : forall {A} (xs : list A) (x : A), (xs ++ [x]) !! length xs = Some x).
  { intros A xs x. rewrite lookup_app_r by lia. now rewrite Nat.sub_diag. }
  replace (length gs) with (length (<[g:=GDone]> gs)) by apply length_insert.
  rewrite Hlast. cbn.
  pose proof (tls_Listen_free P (listen_config c) n Hrange Hfree) as Hbind.
  rewrite Hbind. cbn.
  replace (length hss) with (length hss1) by apply length_insert.
  rewrite Hlast. cbn.
  eexists. split; [reflexivity|]. cbn.
  split; [reflexivity|]. split; [reflexivity|]. split.
  - rewrite list_lookup_insert_eq; [reflexivity|].
    rewrite length_app. cbn. lia.
  - apply elem_of_union_l. now apply elem_of_singleton.
Qed.

(** Claim C1.  Once the server remembers a non-zero port [P]:
    [Stop], [ToBackground], [ToForeground], [Start] and a
    background-then-foreground cycle leave the [Port] field at [P];
    the listen loop binds on [P], and a successful bind keeps [P];
    along any run the field differs from [P] only after a bind on [P]
    failed; and a settled background-then-foreground cycle of a
    serving server ends with a listener bound to [P] again, provided
    [P] is free when the new listen goroutine runs. *)
Theorem remembered_port_rebound (w : World) (P : Z) :
  Port (srv w) = P ->
  P <> 0%Z ->
  (forall lnerr : option Error,
      Port (srv (snd (Stop lnerr w))) = P /\
      Port (srv (ToBackground lnerr w)) = P /\
      Port (srv (ToForeground w)) = P /\
      Port (srv (snd (Start w))) = P /\
      Port (srv (ToForeground (ToBackground lnerr w))) = P) /\
  (forall (g : nat) (w' : World),
      listenAndServe g w = Next w' ->
      exists c : tls_Certificate,
        cert (srv w) = Some c /\
        ((exists l n, tls_Listen P (listen_config c) (network w) = (Ok l, n) /\
                      Addr_Port l = P /\ Port (srv w') = P) \/
         (exists err n, tls_Listen P (listen_config c) (network w) = (Err err, n) /\
                        Port (srv w') = 0%Z))) /\
  (forall (acts : list Action) (w' : World),
      run_actions acts w = Next w' ->
      Port (srv w') = P \/
      (exists acts1 g acts2 w1,
          acts = acts1 ++ RunListen g :: acts2 /\
          run_actions acts1 w = Next w1 /\
          Port (srv w1) = P /\
          bind_fails w1)) /\
  (forall (g h : nat) (l : Listener) (hs : http_Server) (c : tls_Certificate)
          (lnerr : option Error) (e : Error),
      (0 < P <= 65535)%Z ->
      run (srv w) = true ->
      cert (srv w) = Some c ->
      server (srv w) = Some h ->
      http_servers w !! h = Some hs ->
      inShutdown hs = false ->
      goroutines w !! g = Some (GServing h l) ->
      exists w3,
        run_actions [CallToBackground lnerr; ServeReturn g e; CallToForeground] w
        = Next w3 /\
        Port (srv w3) = P /\
        forall n : Net,
          P ∉ in_use n ->
          exists w4,
            listenAndServe (length (goroutines w)) (set_network n w3) = Next w4 /\
            Port (srv w4) = P /\
            run (srv w4) = true /\
            goroutines w4 !! length (goroutines w)
            = Some (GServing (length (http_servers w))
                      (mkListener P (listen_config c))) /\
            P ∈ in_use (network w4)).
Proof.
  intros HP Hnz. split; [|split; [|split]].
  - intros lnerr. subst P.
    rewrite Stop_Port, !ToForeground_Port, !ToBackground_Port.
    repeat split; reflexivity.
  - intros g w' Hrun.
    destruct (listenAndServe_Port g w w' Hrun) as (c & _ & Hc & Hcases).
    cbv zeta in Hcases. rewrite HP in Hcases.
    exists c. split; [exact Hc|].
    destruct Hcases as [(err & n & Hl & HP') | (l & n & Hl & HP')].
    + right. eauto.
    + left. exists l, n.
      assert (Addr_Port l = P) by (eapply tls_Listen_same_port; eauto).
      split; [exact Hl|]. split; congruence.
  - intros acts w' Hrun. rewrite <- HP.
    apply (run_actions_Port acts w w'); [congruence | exact Hrun].
  - intros g h l hs c lnerr e Hrange Hr Hc Hs Hhs Hopen Hg.
    destruct (foreground_cycle w P g h l hs c lnerr e HP Hrange Hr Hc Hs Hhs Hopen Hg)
      as (w3 & Hrun & HP3 & _ & Hlisten).
    exists w3. auto.
Qed.

Lemma remembered_port_rebound_witness :
  Port (srv (ToForeground (ToBackground None Sample.serving))) = 49152%Z /\
  exists w3,
    run_actions [CallToBackground None; ServeReturn 0 ErrServerClosed; CallToForeground]
      Sample.serving = Next w3 /\
    Port (srv w3) = 49152%Z /\
    forall n : Net,
      49152%Z ∉ in_use n ->
      exists w4,
        listenAndServe 1 (set_network n w3) = Next w4 /\
        Port (srv w4) = 49152%Z /\
        run (srv w4) = true /\
        goroutines w4 !! 1%nat
        = Some (GServing 1 (mkListener 49152 (listen_config Sample.certificate))) /\
        49152%Z ∈ in_use (network w4).
Proof.
  pose proof (remembered_port_rebound Sample.serving 49152 eq_refl ltac:(discriminate))
    as (Hkeep & _ & _ & Hcycle).
  split.
  - exact (proj2 (proj2 (proj2 (proj2 (Hkeep None))))).
  - apply (Hcycle 0%nat 0%nat
             (mkListener 49152 (listen_config Sample.certificate))
             (mk_http_Server
                (<["/messages/identicons" := HIdenticon mk_identiconHandler]>
                   (<["/messages/audio" := HAudio (mk_audioHandler Sample.messages)]>
                      (<["/messages/images" := HImage (mk_imageHandler Sample.messages)]>
                         ∅)))
                false)
             Sample.certificate None ErrServerClosed).
    + lia.
    + reflexivity.
    + reflexivity.
    + reflexivity.
    + vm_compute. reflexivity.
    + reflexivity.
    + vm_compute. reflexivity.
Defined.

(** The cycle above is a settled one.  When [ToForeground] is called
    before the listen goroutine has returned from [Serve], the running
    flag is still set, the call does nothing, and the server stays
    stopped (with its port still remembered). *)
Example unsettled_cycle_stays_stopped :
  exists w',
    run_actions [CallToBackground None; CallToForeground; ServeReturn 0 ErrServerClosed]
      Sample.serving = Next w' /\
    run (srv w') = false /\
    goroutines w' = [GDone] /\
    Port (srv w') = 49152%Z.
Proof. eexists. split; [vm_compute; reflexivity|]. repeat split. Qed.

(** Claim C2.  When the bind on the remembered port fails, the listen
    goroutine logs it, resets [Port] to 0 and calls [Start] (a fresh
    [http.Server] and a fresh listen goroutine) before it returns.
    That next goroutine therefore binds on port 0, and when this bind
    succeeds [Port] becomes the port of the listener the operating
    system handed out. *)
Theorem bind_failure_resets_port
    (w : World) (g : nat) (c : tls_Certificate) (err : Error) (n : Net) :
  goroutines w !! g = Some GListen ->
  cert (srv w) = Some c ->
  tls_Listen (Port (srv w)) (listen_config c) (network w) = (Err err, n) ->
  exists w',
    listenAndServe g w = Next w' /\
    w' = set_goroutine g GDone
           (snd (Start (set_Port 0
                          (log_Error "failed to start server, retrying" (Some err) w)))) /\
    Port (srv w') = 0%Z /\
    server (srv w') = Some (length (http_servers w)) /\
    goroutines w' !! g = Some GDone /\
    goroutines w' !! length (goroutines w) = Some GListen /\
    forall (n2 n3 : Net) (l : Listener),
      tls_Listen 0 (listen_config c) n2 = (Ok l, n3) ->
      exists w'',
        listenAndServe (length (goroutines w)) (set_network n2 w') = Next w'' /\
        Port (srv w'') = Addr_Port l /\
        run (srv w'') = true /\
        network w'' = n3 /\
        goroutines w'' !! length (goroutines w)
        = Some (GServing (length (http_servers w)) l).
Proof.
  intros Hg Hc Hl.
  assert (Hgl : (g < length (goroutines w))%nat) by (eapply lookup_lt_Some; eauto).
  destruct w as [[port r sv lg d ct] hss gs n0]. cbn in *. subst ct.
  assert (Hlast : forall {A} (xs : list A) (x : A), (xs ++ [x]) !! length xs = Some x).
  { intros A xs x. rewrite lookup_app_r by lia. now rewrite Nat.sub_diag. }
  eexists. split.
  { unfold listenAndServe. cbn. rewrite Hg, Hl. reflexivity. }
  split; [reflexivity|]. cbn.
  split; [reflexivity|]. split; [reflexivity|]. split; [|split].
  - apply list_lookup_insert_eq. rewrite length_app. cbn. lia.
  - rewrite list_lookup_insert_ne by lia. apply Hlast.
  - intros n2 n3 l Hl2. unfold listenAndServe. cbn.
    rewrite list_lookup_insert_ne by lia. rewrite Hlast. rewrite Hl2. cbn.
    rewrite Hlast. cbn.
    eexists. split; [reflexivity|]. cbn.
    repeat split.
    rewrite list_lookup_insert_eq; [reflexivity|].
    rewrite length_insert, length_app. cbn. lia.
Qed.

Lemma bind_failure_resets_port_witness :
  exists w',
    listenAndServe 1 Sample.squatted = Next w' /\
    Port (srv w') = 0%Z /\
    goroutines w' !! 2%nat = Some GListen /\
    exists w'',
      listenAndServe 2 w' = Next w'' /\
      Port (srv w'') = 49153%Z /\
      run (srv w'') = true.
Proof.
  destruct (bind_failure_resets_port Sample.squatted 1 Sample.certificate
              (ErrMsg "listen tcp: bind: address already in use")
              (network Sample.squatted))
    as (w' & Hrun & Hw' & HP & _ & _ & Hg & Hnext).
  - vm_compute. reflexivity.
  - reflexivity.
  - vm_compute. reflexivity.
  - exists w'. split; [exact Hrun|]. split; [exact HP|]. split; [exact Hg|].
    destruct (Hnext (network w') (net_bind 49153 (network w'))
                (mkListener 49153 (listen_config Sample.certificate)))
      as (w'' & Hrun2 & HP2 & Hr2 & _).
    + rewrite Hw'. vm_compute. reflexivity.
    + exists w''. split; [|split; [exact HP2 | exact Hr2]].
      rewrite <- Hrun2. rewrite Hw'. reflexivity.
Defined.

(** Claim C9.  [ToBackground] on a server whose running flag is false
    and [ToForeground] on a server whose running flag is true change
    nothing at all: the same port, flag and server handle, no new
    [http.Server], goroutine or listener, nothing logged. *)
Theorem lifecycle_transitions_noop (w : World) (lnerr : option Error) :
  (run (srv w) = false ->
   ToBackground lnerr w = w /\ exec (CallToBackground lnerr) w = Next w) /\
  (run (srv w) = true ->
   ToForeground w = w /\ exec CallToForeground w = Next w).
Proof.
  split; intros Hrun.
  - assert (Hbg : ToBackground lnerr w = w).
    { unfold ToBackground. now rewrite Hrun. }
    split; [exact Hbg|]. cbn [exec]. now rewrite Hbg.
  - assert (Hfg : ToForeground w = w).
    { unfold ToForeground. now rewrite Hrun. }
    split; [exact Hfg|]. cbn [exec]. now rewrite Hfg.
Qed.

Lemma lifecycle_transitions_noop_witness :
  ToBackground (Some (ErrMsg "close tcp")) Sample.backgrounded = Sample.backgrounded /\
  ToForeground Sample.serving = Sample.serving.
Proof.
  split.
  - apply (proj1 (lifecycle_transitions_noop Sample.backgrounded
                    (Some (ErrMsg "close tcp")))).
    reflexivity.
  - apply (proj2 (lifecycle_transitions_noop Sample.serving None)).
    reflexivity.
Defined.

(** The two messages that only the branches guarding the error of
    [Start] can log. *)
Lemma Start_error_branches_silent (a : Action) (w w' : World) :
  exec a w = Next w' ->
  exists delta : list LogEntry,
    logger (srv w') = logger (srv w) ++ delta /\
    forall entry : LogEntry,
      entry ∈ delta ->
      log_msg entry <> "server start failed, giving up" /\
      log_msg entry <> "server start failed during foreground transition".
Proof.
  assert (Hnil : forall (P : LogEntry -> Prop) (l : Logger),
             l = l ++ [] /\ forall entry, entry ∈ [] -> P entry).
  { intros P l. split; [now rewrite app_nil_r|]. intros entry Hin.
    now apply elem_of_nil in Hin. }
  assert (Hone : forall (l : Logger) (msg : string) (f : option Error),
             msg <> "server start failed, giving up" ->
             msg <> "server start failed during foreground transition" ->
             exists delta : list LogEntry,
               l ++ [mkLog msg f] = l ++ delta /\
               forall entry : LogEntry,
                 entry ∈ delta ->
                 log_msg entry <> "server start failed, giving up" /\
                 log_msg entry <> "server start failed during foreground transition").
  { intros l msg f H1 H2. exists [mkLog msg f]. split; [reflexivity|].
    intros entry Hin. apply list_elem_of_singleton in Hin. subst entry. auto. }
  destruct a as [| lnerr | | lnerr | g | g e]; cbn [exec].
  - intros [= <-]. exists []. apply Hnil.
  - intros [= <-]. exists []. unfold Stop.
    destruct (server (srv w)) as [h|]; [|apply Hnil].
    rewrite (proj1 (Shutdown_srv h lnerr w)). apply Hnil.
  - intros [= <-]. exists []. unfold ToForeground.
    destruct (negb (run (srv w)) && bool_decide (server (srv w) ≠ None));
      apply Hnil.
  - intros [= <-]. unfold ToBackground.
    destruct (run (srv w)); [|exists []; apply Hnil].
    unfold Stop. destruct (server (srv w)) as [h|]; [|exists []; apply Hnil].
    destruct (Shutdown_srv h lnerr w) as (Hs & _ & He).
    destruct (Shutdown h lnerr w) as [err w1]. cbn in Hs, He. subst err.
    destruct lnerr as [e0|]; cbn; rewrite Hs.
    + apply Hone; discriminate.
    + exists []. apply Hnil.
  - unfold listenAndServe.
    destruct (goroutines w !! g) as [[| |]|]; try discriminate.
    destruct (cert (srv w)) as [c|]; [|discriminate].
    destruct (tls_Listen _ _ _) as [[l|err] n].
    + cbn. destruct (server (srv w)) as [h|]; [|discriminate].
      destruct (http_servers w !! h) as [hs|]; [|discriminate].
      destruct (inShutdown hs); intros [= <-]; exists []; apply Hnil.
    + intros [= <-]. cbn. apply Hone; discriminate.
  - unfold Serve_returns.
    destruct (goroutines w !! g) as [[|h l|]|]; try discriminate.
    destruct (http_servers w !! h) as [hs|]; try discriminate.
    destruct (inShutdown hs).
    + intros [= <-]. exists []. apply Hnil.
    + case_bool_decide as He; [discriminate|].
      intros [= <-]. unfold Serve_returned.
      rewrite bool_decide_eq_true_2 by exact He. cbn.
      apply Hone; discriminate.
Qed.

(** Claim C10.  [Start] returns nil in every state: with the server
    already running, without a certificate, or called again on its own
    result.  Hence no step of the system ever takes one of the
    branches that guard its error: the messages of these branches, in
    [ToForeground] and in the two retries of the listen loop, are
    never logged. *)
Theorem Start_always_returns_nil :
  (forall w : World,
      fst (Start w) = None /\
      fst (Start (snd (Start w))) = None /\
      fst (Start (set_run true w)) = None /\
      (cert (srv w) = None -> fst (Start w) = None)) /\
  (forall (a : Action) (w w' : World),
      exec a w = Next w' ->
      exists delta : list LogEntry,
        logger (srv w') = logger (srv w) ++ delta /\
        forall entry : LogEntry,
          entry ∈ delta ->
          log_msg entry <> "server start failed, giving up" /\
          log_msg entry <> "server start failed during foreground transition").
Proof.
  split.
  - intros w. repeat split; intros; now rewrite Start_unfold.
  - exact Start_error_branches_silent.
Qed.

Lemma Start_always_returns_nil_witness :
  fst (Start Sample.serving) = None /\
  exists w' delta,
    exec (RunListen 1) Sample.squatted = Next w' /\
    logger (srv w') = logger (srv Sample.squatted) ++ delta /\
    forall entry : LogEntry,
      entry ∈ delta ->
      log_msg entry <> "server start failed, giving up" /\
      log_msg entry <> "server start failed during foreground transition".
Proof.
  split.
  - exact (proj1 (proj1 Start_always_returns_nil Sample.serving)).
  - eexists.
    assert (Hrun : exec (RunListen 1) Sample.squatted
                   = Next (set_goroutine 1 GDone
                             (snd (Start (set_Port 0
                                (log_Error "failed to start server, retrying"
                                   (Some (ErrMsg "listen tcp: bind: address already in use"))
                                   Sample.squatted)))))).
    { vm_compute. reflexivity. }
    destruct (proj2 Start_always_returns_nil _ _ _ Hrun) as (delta & Hlog & Hsilent).
    exists delta. split; [exact Hrun|]. split; [exact Hlog | exact Hsilent].
Defined.

(** ** More on the lifecycle controller *)

Lemma lookup_snoc_length {A} (xs : list A) (x : A) : (xs ++ [x]) !! length xs = Some x.
Proof. rewrite lookup_app_r by lia. now rewrite Nat.sub_diag. Qed.

Lemma elem_of_insert_inv {A} (l : list A) (i : nat) (x y : A) :
  y ∈ <[i:=x]> l -> y = x \/ y ∈ l.
Proof.
  intros Hin. apply list_elem_of_lookup in Hin as [j Hj].
  destruct (decide (i = j)) as [->|Hne].
  - destruct (decide (j < length l)%nat) as [Hlt|Hge].
    + rewrite list_lookup_insert_eq in Hj by exact Hlt. left. congruence.
    + rewrite list_insert_ge in Hj by lia. right. eapply list_elem_of_lookup_2; eauto.
  - rewrite list_lookup_insert_ne in Hj by exact Hne.
    right. eapply list_elem_of_lookup_2; eauto.
Qed.

Lemma well_formed_Start (w : World) : well_formed w -> well_formed (snd (Start w)).
Proof.
  intros (Hc & _ & _). rewrite Start_unfold. unfold well_formed. cbn.
  split; [exact Hc|]. split.
  - intros h [= <-]. rewrite length_app. cbn. lia.
  - eauto.
Qed.

Lemma well_formed_log (msg : string) (f : option Error) (w : World) :
  well_formed w -> well_formed (log_Error msg f w).
Proof. intros H. exact H. Qed.

Lemma well_formed_Shutdown (h : nat) (lnerr : option Error) (w : World) :
  well_formed w -> well_formed (snd (Shutdown h lnerr w)).
Proof.
  intros Hwf. unfold Shutdown.
  destruct (http_servers w !! h) as [hs|]; [|exact Hwf].
  destruct (inShutdown hs); [exact Hwf|].
  destruct Hwf as (Hc & Hs & Hg). unfold well_formed. cbn.
  rewrite length_insert. auto.
Qed.

Lemma well_formed_Serve_returned (g : nat) (err : Error) (w : World) :
  well_formed w -> well_formed (Serve_returned g err w).
Proof.
  intros Hwf. unfold Serve_returned. case_bool_decide.
  - pose proof (well_formed_Start _ (well_formed_log
        "server failed unexpectedly, restarting" (Some err) w Hwf)) as (Hc & Hs & Hg).
    rewrite Start_unfold in *. unfold well_formed. cbn in *.
    split; [exact Hc|]. split; [exact Hs|]. eauto.
  - destruct Hwf as (Hc & Hs & Hg). unfold well_formed. cbn.
    split; [exact Hc|]. split; [exact Hs|].
    intros Hin. apply elem_of_insert_inv in Hin as [Heq|Hin]; [discriminate|auto].
Qed.

(** A step from a well-formed state does not panic and ends in a
    well-formed state. *)
Lemma exec_well_formed (a : Action) (w : World) :
  well_formed w ->
  exec a w <> Panic /\ (forall w', exec a w = Next w' -> well_formed w').
Proof.
  intros Hwf. destruct a as [| lnerr | | lnerr | g | g e]; cbn [exec].
  - split; [discriminate|]. intros w' [= <-]. now apply well_formed_Start.
  - split; [discriminate|]. intros w' [= <-]. unfold Stop.
    destruct (server (srv w)); [now apply well_formed_Shutdown | exact Hwf].
  - split; [discriminate|]. intros w' [= <-]. unfold ToForeground.
    destruct (negb (run (srv w)) && bool_decide (server (srv w) ≠ None));
      [|exact Hwf].
    exact (well_formed_Start w Hwf).
  - split; [discriminate|]. intros w' [= <-]. unfold ToBackground.
    destruct (run (srv w)); [|exact Hwf]. unfold Stop.
    destruct (server (srv w)) as [h|]; [|exact Hwf].
    pose proof (well_formed_Shutdown h lnerr w Hwf) as Hwf'.
    destruct (Shutdown h lnerr w) as [[e0|] w1]; exact Hwf'.
  - unfold listenAndServe.
    destruct (goroutines w !! g) as [[| |]|] eqn:Hg;
      try (split; [discriminate|intros ?; discriminate]).
    destruct Hwf as (Hc & Hs & Hgl).
    destruct Hc as [c Hc]. rewrite Hc.
    assert (Hsrv : is_Some (server (srv w))).
    { apply Hgl. eapply list_elem_of_lookup_2; eauto. }
    destruct Hsrv as [h Hh].
    destruct (tls_Listen _ _ _) as [[l|err] n].
    + cbn. rewrite Hh.
      destruct (http_servers w !! h) as [hs|] eqn:Hhs.
      2:{ apply lookup_ge_None in Hhs. specialize (Hs h Hh). lia. }
      assert (Hwf1 : well_formed
                (set_run true (set_Port (Addr_Port l) (set_network n w)))).
      { unfold well_formed. cbn. rewrite Hc, Hh.
        split; [eauto|]. split; [intros h' [= <-]; exact (Hs h Hh) | eauto]. }
      destruct (inShutdown hs).
      * split; [discriminate|]. intros w' [= <-].
        apply well_formed_Serve_returned.
        destruct Hwf1 as (H1 & H2 & H3). unfold well_formed. cbn in *. auto.
      * split; [discriminate|]. intros w' [= <-].
        unfold well_formed. cbn. rewrite Hc, Hh. split; [eauto|].
        split; [intros h' [= <-]; exact (Hs h Hh)|]. eauto.
    + split; [discriminate|]. intros w' [= <-].
      unfold well_formed. cbn. rewrite Hc. split; [eauto|]. split; [|eauto].
      intros h' [= <-]. rewrite length_app. cbn. lia.
  - unfold Serve_returns.
    destruct (goroutines w !! g) as [[|h l|]|];
      try (split; [discriminate|intros ?; discriminate]).
    destruct (http_servers w !! h) as [hs|];
      try (split; [discriminate|intros ?; discriminate]).
    destruct (inShutdown hs).
    + split; [discriminate|]. intros w' [= <-].
      now apply well_formed_Serve_returned.
    + case_bool_decide; [split; [discriminate|intros ?; discriminate]|].
      split; [discriminate|]. intros w' [= <-].
      apply well_formed_Serve_returned.
      destruct Hwf as (H1 & H2 & H3). unfold well_formed. cbn. auto.
Qed.

Lemma run_actions_well_formed (acts : list Action) (w : World) :
  well_formed w ->
  run_actions acts w <> Panic /\
  (forall w', run_actions acts w = Next w' -> well_formed w').
Proof.
  revert w. induction acts as [|a acts IH]; intros w Hwf; cbn.
  - split; [discriminate|]. now intros w' [= <-].
  - destruct (exec_well_formed a w Hwf) as [Hnp Hstep].
    destruct (exec a w) as [w1| |]; [|contradiction|].
    + apply IH. now apply Hstep.
    + split; [discriminate|intros ?; discriminate].
Qed.

Lemma tls_Listen_in_use (port : Z) (cfg : tls_Config) (n : Net) :
  port <> 0%Z -> port ∈ in_use n ->
  exists err, tls_Listen port cfg n = (Err err, n).
Proof.
  intros Hnz Hin. unfold tls_Listen.
  destruct ((port <? 0)%Z || (65535 <? port)%Z); [eauto|].
  replace (port =? 0)%Z with false by (symmetry; now apply Z.eqb_neq).
  rewrite bool_decide_eq_true_2 by exact Hin. eauto.
Qed.

Lemma tls_Listen_exhausted (cfg : tls_Config) (n : Net) :
  exhausted n -> exists err, tls_Listen 0 cfg n = (Err err, n).
Proof. intros Hex. unfold tls_Listen. cbn. rewrite Hex. eauto. Qed.

Lemma tls_Listen_Err_network (port : Z) (cfg : tls_Config) (n n' : Net) (err : Error) :
  tls_Listen port cfg n = (Err err, n') -> n' = n.
Proof.
  unfold tls_Listen.
  destruct ((port <? 0)%Z || (65535 <? port)%Z); [now intros [= _ <-]|].
  destruct (port =? 0)%Z.
  - destruct (List.find _ _); [discriminate | now intros [= _ <-]].
  - case_bool_decide; [now intros [= _ <-] | discriminate].
Qed.

Lemma foldr_net_close_released (ps : list Z) (n : Net) (p : Z) :
  p ∈ ps -> p ∉ in_use (foldr net_close n ps).
Proof.
  induction ps as [|q ps IH]; intros Hin.
  - now apply elem_of_nil in Hin.
  - cbn. intros Hx. apply elem_of_difference in Hx as [Hx Hn].
    apply elem_of_cons in Hin as [->|Hin].
    + apply Hn. now apply elem_of_singleton.
    + exact (IH Hin Hx).
Qed.

Lemma listeners_of_serving (h g : nat) (l : Listener) (gs : list Goroutine) :
  gs !! g = Some (GServing h l) -> Addr_Port l ∈ listeners_of h gs.
Proof.
  intros Hg. unfold listeners_of. apply list_elem_of_omap.
  exists (GServing h l). split; [eapply list_elem_of_lookup_2; eauto|].
  cbn. now rewrite bool_decide_eq_true_2.
Qed.

Section ConstructedServer.
Context `{Crypto}.

(** X1.  A server obtained from [NewServer] never makes the process
    panic, whatever the application calls and however the listen
    goroutines are scheduled; a [Server] value without certificate, on
    the other hand, panics in its first listen goroutine. *)
Theorem constructed_server_never_panics
    (db : DB) (lg : Logger) (p p' : Process) (s : Server) (err : option Error) :
  NewServer db lg p = ((Some s, err), p') ->
  (forall (n : Net) (acts : list Action), run_actions acts (fresh_world s n) <> Panic) /\
  (forall (s0 : Server) (n : Net),
      cert s0 = None ->
      run_actions [CallStart; RunListen 0] (fresh_world s0 n) = Panic).
Proof.
  intros Hnew. split.
  - intros n acts. apply run_actions_well_formed.
    unfold NewServer in Hnew.
    destruct (generateTLSCert p) as [[u|e] q] eqn:Hgen; [|discriminate].
    injection Hnew as <- _ _.
    destruct (generateTLSCert_Ok_cached p q u Hgen) as [c Hc].
    unfold well_formed, fresh_world. cbn. rewrite Hc.
    split; [eauto|]. split; [discriminate|].
    intros Hin. now apply elem_of_nil in Hin.
  - intros s0 n Hc. destruct s0 as [port r sv l d ct]. cbn in Hc. subst ct.
    reflexivity.
Qed.

(** X2.  Before the first [Start] the lifecycle entry points do
    nothing: on a server as [NewServer] returns it, [ToForeground]
    does not start anything although the server is not running,
    [Stop] returns nil and [ToBackground] returns at once. *)
Theorem constructed_server_is_idle
    (db : DB) (lg : Logger) (p p' : Process) (s : Server) (err : option Error)
    (n : Net) (lnerr : option Error) :
  NewServer db lg p = ((Some s, err), p') ->
  Port s = 0%Z /\ run s = false /\ server s = None /\
  ToForeground (fresh_world s n) = fresh_world s n /\
  Stop lnerr (fresh_world s n) = (None, fresh_world s n) /\
  ToBackground lnerr (fresh_world s n) = fresh_world s n.
Proof.
  unfold NewServer.
  destruct (generateTLSCert p) as [[u|e] q]; [|discriminate].
  intros [= <- _ _]. repeat split.
Qed.

End ConstructedServer.

(** X3.  When [Serve] fails on a serving server with an error other
    than [http.ErrServerClosed], the listen goroutine logs it and
    calls [Start]: the port stays remembered, the running flag is not
    cleared, and the goroutine that [Start] spawns binds the very same
    port again (the failed listener has released it). *)
Theorem serve_failure_restarts_on_same_port
    (w : World) (P : Z) (g h : nat) (l : Listener) (hs : http_Server)
    (c : tls_Certificate) (e : Error) :
  Port (srv w) = P ->
  Addr_Port l = P ->
  (0 < P <= 65535)%Z ->
  cert (srv w) = Some c ->
  http_servers w !! h = Some hs ->
  inShutdown hs = false ->
  goroutines w !! g = Some (GServing h l) ->
  e <> ErrServerClosed ->
  exists w1 w2,
    Serve_returns g e w = Next w1 /\
    Port (srv w1) = P /\
    run (srv w1) = run (srv w) /\
    logger (srv w1)
    = logger (srv w) ++ [mkLog "server failed unexpectedly, restarting" (Some e)] /\
    goroutines w1 !! g = Some GDone /\
    (P ∉ in_use (network w1)) /\
    listenAndServe (length (goroutines w)) w1 = Next w2 /\
    Port (srv w2) = P /\
    run (srv w2) = true /\
    goroutines w2 !! length (goroutines w)
    = Some (GServing (length (http_servers w)) (mkListener P (listen_config c))).
Proof.
  intros HP Hl Hrange Hc Hhs Hopen Hg He.
  assert (Hgl : (g < length (goroutines w))%nat) by (eapply lookup_lt_Some; eauto).
  destruct w as [[port r sv lg d ct] hss gs n0]. cbn in *. subst port ct.
  assert (Hfree : P ∉ in_use (net_close P n0)).
  { cbn. intros Hx. apply elem_of_difference in Hx as [_ Hn].
    apply Hn. now apply elem_of_singleton. }
  pose proof (tls_Listen_free P (listen_config c) _ Hrange Hfree) as Hbind.
  eexists _, _. split.
  { unfold Serve_returns. cbn. rewrite Hg, Hhs, Hopen.
    rewrite bool_decide_eq_false_2 by exact He.
    unfold Serve_returned. rewrite bool_decide_eq_true_2 by exact He.
    rewrite Hl. reflexivity. }
  cbn. split; [reflexivity|]. split; [reflexivity|]. split; [reflexivity|].
  split; [apply list_lookup_insert_eq; rewrite length_app; cbn; lia|].
  split; [exact Hfree|].
  split.
  { unfold listenAndServe. cbn.
    rewrite list_lookup_insert_ne by lia. rewrite lookup_snoc_length.
    rewrite Hbind. cbn. rewrite lookup_snoc_length. cbn. reflexivity. }
  cbn. split; [reflexivity|]. split; [reflexivity|].
  apply list_lookup_insert_eq. rewrite length_insert, length_app. cbn. lia.
Qed.

(** X4.  [Start] does not check the running flag.  Called on a server
    that already holds its port, it spawns a second listen goroutine
    whose bind fails, so the remembered port is reset to 0 and a third
    goroutine is spawned; the goroutines and [http.Server] objects
    that existed before keep running, and since [server] now points
    to the newest object, [Stop] no longer reaches them. *)
Theorem Start_while_serving_forgets_port
    (w : World) (P : Z) (c : tls_Certificate) (lnerr : option Error) :
  Port (srv w) = P ->
  P <> 0%Z ->
  P ∈ in_use (network w) ->
  cert (srv w) = Some c ->
  exists w',
    run_actions [CallStart; RunListen (length (goroutines w))] w = Next w' /\
    Port (srv w') = 0%Z /\
    run (srv w') = run (srv w) /\
    network w' = network w /\
    server (srv w') = Some (S (length (http_servers w))) /\
    goroutines w' !! S (length (goroutines w)) = Some GListen /\
    (forall i : nat,
        (i < length (goroutines w))%nat ->
        goroutines w' !! i = goroutines w !! i /\
        goroutines (snd (Stop lnerr w')) !! i = goroutines w !! i) /\
    (forall h : nat,
        (h < length (http_servers w))%nat ->
        http_servers (snd (Stop lnerr w')) !! h = http_servers w !! h).
Proof.
  intros HP Hnz Hin Hc.
  destruct w as [[port r sv lg d ct] hss gs n0]. cbn in *. subst port ct.
  destruct (tls_Listen_in_use P (listen_config c) n0 Hnz Hin) as [err Herr].
  eexists. split.
  { unfold listenAndServe. cbn. rewrite lookup_snoc_length. rewrite Herr. reflexivity. }
  cbn. split; [reflexivity|]. split; [reflexivity|]. split; [reflexivity|].
  split; [do 2 f_equal; rewrite length_app; cbn; lia|].
  split.
  { rewrite list_lookup_insert_ne by lia.
    replace (S (length gs)) with (length (gs ++ [GListen]))
      by (rewrite length_app; cbn; lia).
    apply lookup_snoc_length. }
  assert (Hlen : length (hss ++ [mk_http_Server
             (<["/messages/identicons" := HIdenticon mk_identiconHandler]>
                (<["/messages/audio" := HAudio (mk_audioHandler d)]>
                   (<["/messages/images" := HImage (mk_imageHandler d)]> ∅))) false])
          = S (length hss)) by (rewrite length_app; cbn; lia).
  unfold Stop, Shutdown. cbn. rewrite lookup_snoc_length. cbn.
  split.
  - intros i Hi.
    rewrite list_lookup_insert_ne by lia.
    rewrite !lookup_app_l by (rewrite ?length_app; lia). auto.
  - intros h Hh. rewrite list_lookup_insert_ne by lia.
    now rewrite !lookup_app_l by (rewrite ?length_app; lia).
Qed.

(** One failing attempt of the goroutine spawned last. *)
Lemma retry_step (w : World) (gs : list Goroutine) :
  bind_fails w ->
  exhausted (network w) ->
  goroutines w = gs ++ [GListen] ->
  exists w' err,
    listenAndServe (length (goroutines w) - 1) w = Next w' /\
    bind_fails w' /\
    network w' = network w /\
    goroutines w' = (gs ++ [GDone]) ++ [GListen] /\
    length (http_servers w') = S (length (http_servers w)) /\
    Port (srv w') = 0%Z /\
    run (srv w') = run (srv w) /\
    logger (srv w') = logger (srv w) ++ [mkLog "failed to start server, retrying" (Some err)].
Proof.
  intros (c & err & n & Hc & Hl) Hex Hgs.
  destruct w as [[port r sv lg d ct] hss gs0 n0]. cbn in *. subst ct gs0.
  pose proof (tls_Listen_Err_network _ _ _ _ _ Hl) as ->.
  replace (length (gs ++ [GListen]) - 1)%nat with (length gs)
    by (rewrite length_app; cbn; lia).
  exists (set_goroutine (length gs) GDone
            (snd (Start (set_Port 0
               (log_Error "failed to start server, retrying" (Some err)
                  (mkWorld (mkServer port r sv lg d (Some c)) hss (gs ++ [GListen]) n0)))))),
         err.
  split.
  { unfold listenAndServe. cbn. rewrite lookup_snoc_length, Hl. reflexivity. }
  cbn. split.
  { destruct (tls_Listen_exhausted (listen_config c) n0 Hex) as [err0 Herr0].
    exists c, err0, n0. cbn. auto. }
  split; [reflexivity|]. split.
  { rewrite insert_app_l by (rewrite length_app; cbn; lia).
    f_equal. rewrite insert_app_r_alt by lia. now rewrite Nat.sub_diag. }
  split; [rewrite length_app; cbn; lia|].
  repeat split.
Qed.

(** X5.  While no port can be bound (the remembered port is taken and
    no ephemeral port is free) the listen loop retries without bound:
    each listen goroutine fails, logs the failure and makes [Start]
    spawn the next one, so [k] attempts leave [k] log records, [k] new
    [http.Server] objects and one more pending goroutine; it never
    gives up and never marks the server as running. *)
Theorem persistent_bind_failure_retries_without_bound (k : nat) :
  forall (w : World) (gs : list Goroutine),
    bind_fails w ->
    exhausted (network w) ->
    goroutines w = gs ++ [GListen] ->
    exists (w' : World) (delta : list LogEntry) (done : list Goroutine),
      retry_listen k w = Next w' /\
      network w' = network w /\
      run (srv w') = run (srv w) /\
      logger (srv w') = logger (srv w) ++ delta /\
      length delta = k /\
      Forall (fun entry => log_msg entry = "failed to start server, retrying") delta /\
      goroutines w' = (gs ++ done) ++ [GListen] /\
      length done = k /\
      Forall (fun g => g = GDone) done /\
      length (http_servers w') = (length (http_servers w) + k)%nat /\
      ((0 < k)%nat -> Port (srv w') = 0%Z).
Proof.
  induction k as [|k IH]; intros w gs Hfail Hex Hgs.
  - exists w, [], []. cbn. rewrite !app_nil_r.
    repeat split; auto; lia.
  - destruct (retry_step w gs Hfail Hex Hgs)
      as (w1 & err & Hrun & Hfail1 & Hn1 & Hgs1 & Hhs1 & HP1 & Hr1 & Hlog1).
    assert (Hex1 : exhausted (network w1)) by now rewrite Hn1.
    destruct (IH w1 (gs ++ [GDone]) Hfail1 Hex1 Hgs1)
      as (w' & delta & done & Hrun' & Hn' & Hr' & Hlog' & Hlen & Hall & Hgs' & Hdl
          & Hdone & Hhs' & HP').
    exists w', (mkLog "failed to start server, retrying" (Some err) :: delta),
      (GDone :: done).
    split; [cbn [retry_listen]; now rewrite Hrun|].
    split; [congruence|]. split; [congruence|].
    split; [rewrite Hlog', Hlog1, <- app_assoc; reflexivity|].
    split; [cbn; lia|].
    split; [constructor; [reflexivity | exact Hall]|].
    split; [rewrite Hgs'; f_equal; rewrite <- app_assoc; reflexivity|].
    split; [cbn; lia|].
    split; [constructor; [reflexivity | exact Hdone]|].
    split; [lia|].
    intros _. destruct k as [|k'].
    + cbn in Hrun'. injection Hrun' as <-. exact HP1.
    + apply HP'. lia.
Qed.

(** X6.  [Stop] on a serving server shuts its current [http.Server]
    down: it returns what the shutdown returns, the listener's port
    is released, and no field of the server struct changes; in
    particular the running flag stays set until the listen goroutine
    comes back from [Serve], which it then does with
    [http.ErrServerClosed] whatever else happened.  A second [Stop]
    changes nothing. *)
Theorem Stop_shuts_current_server
    (w : World) (g h : nat) (l : Listener) (hs : http_Server)
    (lnerr lnerr' : option Error) (e : Error) :
  server (srv w) = Some h ->
  http_servers w !! h = Some hs ->
  inShutdown hs = false ->
  goroutines w !! g = Some (GServing h l) ->
  exists w1 w2,
    Stop lnerr w = (lnerr, w1) /\
    srv w1 = srv w /\
    goroutines w1 = goroutines w /\
    (Addr_Port l ∉ in_use (network w1)) /\
    Stop lnerr' w1 = (lnerr', w1) /\
    Serve_returns g e w1 = Next w2 /\
    run (srv w2) = false /\
    Port (srv w2) = Port (srv w) /\
    logger (srv w2) = logger (srv w) /\
    goroutines w2 !! g = Some GDone.
Proof.
  intros Hs Hhs Hopen Hg.
  assert (Hh : (h < length (http_servers w))%nat) by (eapply lookup_lt_Some; eauto).
  assert (Hgl : (g < length (goroutines w))%nat) by (eapply lookup_lt_Some; eauto).
  destruct w as [[port r sv lg d ct] hss gs n0]. cbn in *. subst sv.
  eexists _, _. split.
  { unfold Stop, Shutdown. cbn. rewrite Hhs, Hopen. reflexivity. }
  cbn. split; [reflexivity|]. split; [reflexivity|].
  split.
  { apply foldr_net_close_released. eapply listeners_of_serving; eauto. }
  split.
  { unfold Stop, Shutdown. cbn.
    rewrite list_lookup_insert_eq by exact Hh. reflexivity. }
  split.
  { unfold Serve_returns. cbn. rewrite Hg.
    rewrite list_lookup_insert_eq by exact Hh. reflexivity. }
  cbn. repeat split. now apply list_lookup_insert_eq.
Qed.

(** ** More on the certificate provider *)

Section CertificateMore.
Context `{Crypto}.

(** X7.  A successful generation in a process without certificate is
    exactly one pass through the four steps: a P-256 key, a template
    valid from the current time for 365 days
    (31536000000000000 ns), the two PEM blocks, and the key pair
    parsed from them.  The certificate cached is that key pair and
    the PEM cached is the certificate block, not the key block; the
    clock is not changed. *)
Theorem generateTLSCert_success_shape (p p' : Process) (u : unit) :
  globalCertificate p = None ->
  generateTLSCert p = (Ok u, p') ->
  exists priv r1 c r2 certPem keyPem r3 finalCert,
    ecdsa_GenerateKey_P256 (rand_Reader p) = (Ok priv, r1) /\
    GenerateX509Cert (wall_clock p) (wall_clock p + 31536000000000000)%Z r1
    = (Ok c, r2) /\
    GenerateX509PEMs c priv r2 = (Ok (certPem, keyPem), r3) /\
    tls_X509KeyPair certPem keyPem = Ok finalCert /\
    p' = mkProcess (Some finalCert) (string_of_list_byte certPem) r3 (wall_clock p).
Proof.
  intros Hc. unfold generateTLSCert. rewrite Hc.
  unfold mbind, Gen_bind, gen_bind, with_rand, time_Now, gen_lift, store_globals.
  destruct (ecdsa_GenerateKey_P256 _) as [[priv|e] r1] eqn:Hk; [|discriminate].
  cbn.
  change (Time_Add (wall_clock p) (365 * 24 * Hour)%Z)
    with (wall_clock p + 31536000000000000)%Z.
  destruct (GenerateX509Cert _ _ _) as [[c|e] r2] eqn:Hx; [|discriminate].
  cbn.
  destruct (GenerateX509PEMs _ _ _) as [[[certPem keyPem]|e] r3] eqn:Hp; [|discriminate].
  cbn.
  destruct (tls_X509KeyPair _ _) as [fc|e] eqn:Hkp; [|discriminate].
  intros [= _ <-]. cbn.
  exists priv, r1, c, r2, certPem, keyPem, r3, fc. auto.
Qed.

(** X8.  [generateTLSCert] returns an error exactly when no
    certificate is cached and one of its four steps fails, with the
    error of that step; a failed call caches nothing, so a later call
    generates again, and [PublicTLSCert] then returns the empty string
    with the same error. *)
Theorem generateTLSCert_error_iff (p : Process) (e : Error) :
  ((exists p', generateTLSCert p = (Err e, p')) <->
   (globalCertificate p = None /\ generation_fails p e)) /\
  (forall p', generateTLSCert p = (Err e, p') ->
              globalCertificate p' = None /\
              globalPem p' = globalPem p /\
              wall_clock p' = wall_clock p /\
              PublicTLSCert p = ((EmptyString, Some e), p')).
Proof.
  assert (Hfwd : forall p', generateTLSCert p = (Err e, p') ->
            globalCertificate p = None /\ generation_fails p e /\
            globalCertificate p' = None /\ globalPem p' = globalPem p /\
            wall_clock p' = wall_clock p).
  { intros p'. unfold generateTLSCert.
    destruct (globalCertificate p) as [c0|] eqn:Hc; [discriminate|].
    unfold mbind, Gen_bind, gen_bind, with_rand, time_Now, gen_lift, store_globals.
    destruct (ecdsa_GenerateKey_P256 _) as [[priv|e1] r1] eqn:Hk; cbn.
    2:{ intros [= -> <-]. cbn. rewrite Hc. repeat split. eapply key_generation_fails; eauto. }
    destruct (GenerateX509Cert _ _ _) as [[c|e2] r2] eqn:Hx; cbn.
    2:{ intros [= -> <-]. cbn. rewrite Hc. repeat split. eapply x509_template_fails; eauto. }
    destruct (GenerateX509PEMs _ _ _) as [[[certPem keyPem]|e3] r3] eqn:Hp; cbn.
    2:{ intros [= -> <-]. cbn. rewrite Hc. repeat split. eapply pem_encoding_fails; eauto. }
    destruct (tls_X509KeyPair _ _) as [fc|e4] eqn:Hkp; [discriminate|].
    intros [= -> <-]. cbn. rewrite Hc. repeat split. eapply key_pair_fails; eauto. }
  split.
  - split.
    + intros [p' Hg]. destruct (Hfwd p' Hg) as (H1 & H2 & _). auto.
    + intros [Hc Hf]. destruct (generateTLSCert_fails p e Hc Hf) as (p' & Hg & _). eauto.
  - intros p' Hg. destruct (Hfwd p' Hg) as (_ & _ & H3 & H4 & H5).
    repeat split; auto. unfold PublicTLSCert. now rewrite Hg.
Qed.

(** X9.  All servers of a process share one certificate: once a
    first [NewServer] has succeeded, every later [NewServer] (whatever
    the entropy source and the clock have become) succeeds without
    generating, returns a server with the same certificate, and
    [PublicTLSCert] keeps returning the PEM cached by the first call. *)
Theorem servers_share_certificate
    (db1 db2 : DB) (lg1 lg2 : Logger) (p p1 : Process) (s1 : Server)
    (err1 : option Error) (e : Entropy) (t : Time) :
  NewServer db1 lg1 p = ((Some s1, err1), p1) ->
  let p1' := mkProcess (globalCertificate p1) (globalPem p1) e t in
  exists s2,
    NewServer db2 lg2 p1' = ((Some s2, None), p1') /\
    cert s2 = cert s1 /\
    cert s1 = globalCertificate p1 /\
    db s2 = db2 /\
    PublicTLSCert p1' = ((globalPem p1, None), p1').
Proof.
  intros Hnew p1'. unfold NewServer in Hnew.
  destruct (generateTLSCert p) as [[u|e0] q] eqn:Hgen; [|discriminate].
  injection Hnew as <- _ <-.
  destruct (generateTLSCert_Ok_cached p q u Hgen) as [c Hc].
  assert (Hc' : globalCertificate p1' = Some c) by exact Hc.
  eexists. split.
  { unfold NewServer. rewrite (generateTLSCert_cached p1' c Hc'). reflexivity. }
  cbn. repeat split.
  exact (PublicTLSCert_cached p1' c Hc').
Qed.

End CertificateMore.

(** ** More on the resource handlers *)

Section HandlersMore.
Context `{Media}.

(** X10.  A handler reads only the first value of its parameter and
    nothing else of the request: two requests that agree on that value
    get the same response, whatever their path, their other parameters
    or further values of the same parameter. *)
Theorem handlers_read_first_value_only
    (ih : imageHandler) (ah : audioHandler) (idh : identiconHandler)
    (now : Time) (lg : Logger) (w : ResponseWriter) (r1 r2 : Request)
    (v : string) (rest1 rest2 : list string) :
  (URL_Query r1 !! "messageId" = Some (v :: rest1) ->
   URL_Query r2 !! "messageId" = Some (v :: rest2) ->
   imageHandler_ServeHTTP ih lg w r1 = imageHandler_ServeHTTP ih lg w r2 /\
   audioHandler_ServeHTTP ah lg w r1 = audioHandler_ServeHTTP ah lg w r2) /\
  (URL_Query r1 !! "publicKey" = Some (v :: rest1) ->
   URL_Query r2 !! "publicKey" = Some (v :: rest2) ->
   identiconHandler_ServeHTTP idh now lg w r1
   = identiconHandler_ServeHTTP idh now lg w r2).
Proof.
  split; intros H1 H2.
  - unfold imageHandler_ServeHTTP, audioHandler_ServeHTTP.
    rewrite (map_index_present _ _ _ H1), (map_index_present _ _ _ H2).
    split; reflexivity.
  - unfold identiconHandler_ServeHTTP.
    rewrite (map_index_present _ _ _ H1), (map_index_present _ _ _ H2).
    reflexivity.
Qed.

Lemma extends_refl_log (keys : list string) (lg : Logger) (w : ResponseWriter)
    (entry : LogEntry) :
  extends keys lg w (lg ++ [entry]) w.
Proof.
  split; [exists [entry]; cbn; auto|].
  split; [exists []; now rewrite app_nil_r|]. auto.
Qed.

Lemma log_if_err_extends (msg : string) (err : option Error) (lg : Logger) :
  exists entries, log_if_err msg err lg = lg ++ entries /\ (length entries <= 1)%nat.
Proof.
  destruct err as [e|]; cbn.
  - exists [mkLog msg (Some e)]. auto.
  - exists []. rewrite app_nil_r. split; [reflexivity | cbn; lia].
Qed.

(** X11.  Whatever the request, a handler only ever appends: at most
    two log records, bytes at the end of the body; it leaves every
    header other than Content-Type, Cache-Control (and Expires for
    identicons) as it was, and the image and audio handlers never set
    Expires. *)
Theorem handlers_only_append
    (ih : imageHandler) (ah : audioHandler) (idh : identiconHandler)
    (now : Time) (lg : Logger) (w : ResponseWriter) (r : Request)
    (lg' : Logger) (w' : ResponseWriter) :
  (imageHandler_ServeHTTP ih lg w r = Some (lg', w') ->
   extends ["Content-Type"; "Cache-Control"] lg w lg' w') /\
  (audioHandler_ServeHTTP ah lg w r = Some (lg', w') ->
   extends ["Content-Type"; "Cache-Control"] lg w lg' w') /\
  (identiconHandler_ServeHTTP idh now lg w r = Some (lg', w') ->
   extends ["Content-Type"; "Cache-Control"; "Expires"] lg w lg' w').
Proof.
  assert (Hkeys2 : forall (k a b : string) (m : Values) (x y : list string),
            k ∉ [a; b] -> <[b := y]> (<[a := x]> m) !! k = m !! k).
  { intros k a b m x y Hk.
    rewrite !lookup_insert_ne; [reflexivity| |]; intros ->; apply Hk; set_solver. }
  assert (Hkeys3 : forall (k a b c : string) (m : Values) (x y z : list string),
            k ∉ [a; b; c] -> <[c := z]> (<[b := y]> (<[a := x]> m)) !! k = m !! k).
  { intros k a b c m x y z Hk.
    rewrite !lookup_insert_ne; [reflexivity| | |]; intros ->; apply Hk; set_solver. }
  split; [|split].
  - unfold imageHandler_ServeHTTP, map_index, QueryRow_Scan.
    destruct (URL_Query r !! "messageId") as [[|m ms]|]; cbn;
      try (intros [= <- <-]; apply extends_refl_log).
    destruct (imageHandler_db ih !! m) as [row|];
      try (intros [= <- <-]; apply extends_refl_log).
    destruct (image_payload row) as [|b bs] eqn:Himg; cbn;
      try (intros [= <- <-]; apply extends_refl_log).
    destruct (images_ImageMime (b :: bs)) as [mime err].
    intros [= <- <-]. unfold extends. cbn.
    split.
    { destruct (log_if_err_extends "failed to get mime" err lg) as (e1 & -> & Hl1).
      destruct (log_if_err_extends "failed to write image" (conn_err w) (lg ++ e1))
        as (e2 & -> & Hl2).
      exists (e1 ++ e2). rewrite <- app_assoc. split; [reflexivity|].
      rewrite length_app. lia. }
    split; [eauto|]. split; [reflexivity|]. intros k Hk. now apply Hkeys2.
  - unfold audioHandler_ServeHTTP, map_index, QueryRow_Scan.
    destruct (URL_Query r !! "messageId") as [[|m ms]|]; cbn;
      try (intros [= <- <-]; apply extends_refl_log).
    destruct (audioHandler_db ah !! m) as [row|];
      try (intros [= <- <-]; apply extends_refl_log).
    destruct (audio_payload row) as [|b bs] eqn:Haud; cbn;
      try (intros [= <- <-]; apply extends_refl_log).
    intros [= <- <-]. unfold extends. cbn.
    split.
    { destruct (log_if_err_extends "failed to write audio" (conn_err w) lg)
        as (e2 & -> & Hl2).
      exists e2. split; [reflexivity|lia]. }
    split; [eauto|]. split; [reflexivity|]. intros k Hk. now apply Hkeys2.
  - unfold identiconHandler_ServeHTTP, map_index.
    destruct (URL_Query r !! "publicKey") as [[|m ms]|]; cbn;
      try (intros [= <- <-]; apply extends_refl_log).
    destruct (identicon_Generate m) as [image err].
    intros [= <- <-]. unfold extends. cbn.
    split.
    { set (lg1 := match err with
                  | Some _ => Logger_Error "could not generate identicon" None lg
                  | None => lg
                  end).
      assert (Hl1 : exists e1, lg1 = lg ++ e1 /\ (length e1 <= 1)%nat).
      { unfold lg1. destruct err.
        - exists [mkLog "could not generate identicon" None]. auto.
        - exists []. rewrite app_nil_r. split; [reflexivity | cbn; lia]. }
      destruct Hl1 as (e1 & -> & Hl1).
      destruct (log_if_err_extends "failed to write image" (conn_err w) (lg ++ e1))
        as (e2 & -> & Hl2).
      exists (e1 ++ e2). rewrite <- app_assoc. split; [reflexivity|].
      rewrite length_app. lia. }
    split; [eauto|]. split; [reflexivity|]. intros k Hk. now apply Hkeys3.
Qed.

(** X12.  A failure of the MIME sniffer does not stop the image
    handler: the failure is logged and the stored image is still
    served, with the type the sniffer returned next to its error as
    Content-Type. *)
Theorem imageHandler_sniff_failure_still_serves
    (s : imageHandler) (lg : Logger) (w : ResponseWriter) (r : Request)
    (messageID : string) (rest : list string) (row : user_message)
    (mime : string) (e : Error) :
  URL_Query r !! "messageId" = Some (messageID :: rest) ->
  imageHandler_db s !! messageID = Some row ->
  image_payload row <> [] ->
  images_ImageMime (image_payload row) = (mime, Some e) ->
  exists lg' w',
    imageHandler_ServeHTTP s lg w r = Some (lg', w') /\
    lg' = log_if_err "failed to write image" (conn_err w)
            (lg ++ [mkLog "failed to get mime" (Some e)]) /\
    Header w' !! "Content-Type" = Some [mime] /\
    Header w' !! "Cache-Control" = Some ["no-store"] /\
    Body w' = Body w ++ image_payload row.
Proof.
  intros Hq Hrow Hne Hmime. unfold imageHandler_ServeHTTP.
  rewrite (map_index_present _ _ _ Hq). cbn. unfold QueryRow_Scan.
  rewrite Hrow, (length_eqb_0_nonempty _ Hne), Hmime. cbn.
  eexists _, _. split; [reflexivity|]. cbn.
  split; [reflexivity|]. split; [|split; [|reflexivity]].
  - rewrite lookup_insert_ne by discriminate. apply lookup_insert_eq.
  - apply lookup_insert_eq.
Qed.

End HandlersMore.

(** ** Pending sticker packs *)

Section StickersFacts.
Context `{StickersEnv}.

(** X13.  A failure to read the pending packs (the database accessor
    or the JSON decoder fails) is returned unchanged by [AddPending],
    [RemovePending] and [Pending], and nothing is saved. *)
Theorem pending_read_error_propagates
    (adb : accountsDB) (e : Error) (chainID packID : Z) :
  pendingStickerPacks adb = Err e ->
  AddPending chainID packID adb = (Some e, adb) /\
  RemovePending packID adb = (Some e, adb) /\
  Pending adb = Err e /\
  (GetPendingStickerPacks adb = Err e \/
   exists raw, GetPendingStickerPacks adb = Ok (Some raw) /\ json_Unmarshal raw = Err e).
Proof.
  intros Hread. unfold AddPending, RemovePending, Pending. rewrite Hread.
  repeat split. unfold pendingStickerPacks in Hread.
  destruct (GetPendingStickerPacks adb) as [[raw|]|e0]; try discriminate.
  - right. exists raw. split; [reflexivity|].
    destruct (json_Unmarshal raw); [discriminate | congruence].
  - left. congruence.
Qed.

(** X14.  [AddPending] refuses a pack whose key is already pending:
    it returns the error "sticker pack is already pending" and saves
    nothing.  The key is the low 64 bits of the magnitude of the pack
    id, so this also happens for a different id with the same key. *)
Theorem AddPending_rejects_pending_pack
    (adb : accountsDB) (packs : StickerPackCollection) (chainID packID packID' : Z) :
  pendingStickerPacks adb = Ok packs ->
  is_Some (packs !! pack_key packID) ->
  pack_key packID' = pack_key packID ->
  AddPending chainID packID' adb
  = (Some (ErrMsg "sticker pack is already pending"), adb).
Proof.
  intros Hread [pack Hpack] Hkey. unfold AddPending. now rewrite Hread, Hkey, Hpack.
Qed.

(** X15.  When [AddPending] succeeds, the pack was not pending, the
    data fetched for it from the contract is what is saved under its
    key, and the other pending packs are kept; adding it once more
    fails. *)
Theorem AddPending_records_pack
    (adb adb' : accountsDB) (chainID packID : Z) :
  store_round_trips ->
  AddPending chainID packID adb = (None, adb') ->
  exists packs stickerType stickerPack,
    pendingStickerPacks adb = Ok packs /\
    packs !! pack_key packID = None /\
    NewStickerType chainID = Ok stickerType /\
    fetchPackData stickerType packID false = Ok stickerPack /\
    pendingStickerPacks adb' = Ok (<[pack_key packID := stickerPack]> packs) /\
    AddPending chainID packID adb'
    = (Some (ErrMsg "sticker pack is already pending"), adb').
Proof.
  intros Hstore. unfold AddPending at 1.
  destruct (pendingStickerPacks adb) as [packs|e] eqn:Hread; [|discriminate].
  destruct (packs !! pack_key packID) eqn:Hk; [discriminate|].
  destruct (NewStickerType chainID) as [st|e] eqn:Hst; [|discriminate].
  destruct (fetchPackData st packID false) as [pack|e] eqn:Hf; [|discriminate].
  intros Hsave. pose proof (Hstore _ _ _ Hsave) as Hread'.
  exists packs, st, pack. repeat split; auto.
  unfold AddPending. rewrite Hread', lookup_insert_eq. reflexivity.
Qed.

(** X16.  [RemovePending] of a pack that is not pending returns nil
    without saving.  When it succeeds, exactly the entry of that key is
    gone from the pending packs, and a second call changes nothing. *)
Theorem RemovePending_removes_exactly
    (adb adb' : accountsDB) (packs : StickerPackCollection) (packID : Z) :
  store_round_trips ->
  pendingStickerPacks adb = Ok packs ->
  (packs !! pack_key packID = None -> RemovePending packID adb = (None, adb)) /\
  (RemovePending packID adb = (None, adb') ->
   pendingStickerPacks adb' = Ok (delete (pack_key packID) packs) /\
   RemovePending packID adb' = (None, adb')).
Proof.
  intros Hstore Hread. split.
  - intros Hk. unfold RemovePending. now rewrite Hread, Hk.
  - unfold RemovePending at 1. rewrite Hread.
    destruct (packs !! pack_key packID) as [pack|] eqn:Hk.
    + intros Hsave. pose proof (Hstore _ _ _ Hsave) as Hread'.
      split; [exact Hread'|].
      unfold RemovePending. rewrite Hread', lookup_delete_eq. reflexivity.
    + intros [= <-]. rewrite delete_id by exact Hk.
      split; [exact Hread|]. unfold RemovePending. now rewrite Hread, Hk.
Qed.

(** X17.  Adding a pack and then removing it restores the pending
    packs that were there before. *)
Theorem AddPending_then_RemovePending
    (adb adb1 adb2 : accountsDB) (packs : StickerPackCollection) (chainID packID : Z) :
  store_round_trips ->
  pendingStickerPacks adb = Ok packs ->
  AddPending chainID packID adb = (None, adb1) ->
  RemovePending packID adb1 = (None, adb2) ->
  pendingStickerPacks adb2 = Ok packs.
Proof.
  intros Hstore Hread Hadd Hrem. unfold AddPending in Hadd. rewrite Hread in Hadd.
  destruct (packs !! pack_key packID) eqn:Hk; [discriminate|].
  destruct (NewStickerType chainID) as [st|e]; [|discriminate].
  destruct (fetchPackData st packID false) as [pack|e]; [|discriminate].
  pose proof (Hstore _ _ _ Hadd) as Hread1.
  unfold RemovePending in Hrem. rewrite Hread1, lookup_insert_eq in Hrem.
  rewrite (Hstore _ _ _ Hrem).
  rewrite delete_insert_eq. now rewrite delete_id by exact Hk.
Qed.

Lemma decode_stickers_Ok (stickers decoded : list Sticker) :
  decode_stickers stickers = Ok decoded ->
  length decoded = length stickers /\
  forall (i : nat) (sticker : Sticker),
    stickers !! i = Some sticker ->
    exists sticker',
      decoded !! i = Some sticker' /\
      Sticker_Hash sticker' = Sticker_Hash sticker /\
      decodeStringHash (Sticker_Hash sticker) = Ok (Sticker_URL sticker').
Proof.
  revert decoded. induction stickers as [|s stickers IH]; intros decoded; cbn.
  - intros [= <-]. split; [reflexivity|]. intros i sticker Hi. discriminate.
  - destruct (decodeStringHash (Sticker_Hash s)) as [url|e] eqn:Hs; [|discriminate].
    destruct (decode_stickers stickers) as [ds|e]; [|discriminate].
    intros [= <-]. destruct (IH ds eq_refl) as [Hlen Hall].
    split; [cbn; congruence|].
    intros [|i] sticker Hi; cbn in *.
    + injection Hi as <-. eexists. split; [reflexivity|]. auto.
    + now apply Hall.
Qed.

Lemma decode_stickers_Err (stickers : list Sticker) (e : Error) :
  decode_stickers stickers = Err e <->
  exists (i : nat) (sticker : Sticker),
    stickers !! i = Some sticker /\
    decodeStringHash (Sticker_Hash sticker) = Err e /\
    forall (j : nat) (earlier : Sticker),
      (j < i)%nat -> stickers !! j = Some earlier ->
      exists url, decodeStringHash (Sticker_Hash earlier) = Ok url.
Proof.
  induction stickers as [|s stickers IH]; cbn.
  - split; [discriminate|]. intros (i & sticker & Hi & _). discriminate.
  - destruct (decodeStringHash (Sticker_Hash s)) as [url|e0] eqn:Hs.
    + destruct (decode_stickers stickers) as [ds|e1].
      * split; [discriminate|].
        intros ([|i] & sticker & Hi & Hfail & Hbefore); cbn in Hi.
        -- injection Hi as <-. congruence.
        -- assert (Err e = @Ok (list Sticker) ds); [|discriminate].
           symmetry. apply IH. exists i, sticker. split; [exact Hi|].
           split; [exact Hfail|]. intros j earlier Hj Hl.
           apply (Hbefore (S j) earlier); [lia | exact Hl].
      * split.
        -- intros [= ->]. destruct (proj1 IH eq_refl) as (i & sticker & Hi & Hfail & Hb).
           exists (S i), sticker. split; [exact Hi|]. split; [exact Hfail|].
           intros [|j] earlier Hj Hl; cbn in Hl.
           ++ injection Hl as <-. eauto.
           ++ apply (Hb j earlier); [lia | exact Hl].
        -- intros ([|i] & sticker & Hi & Hfail & Hbefore); cbn in Hi.
           ++ injection Hi as <-. congruence.
           ++ f_equal. assert (Err e1 = @Err (list Sticker) e); [|congruence].
              apply IH. exists i, sticker. split; [exact Hi|].
              split; [exact Hfail|]. intros j earlier Hj Hl.
              apply (Hbefore (S j) earlier); [lia | exact Hl].
    + split.
      * intros [= ->]. exists 0%nat, s. split; [reflexivity|]. split; [exact Hs|].
        intros j earlier Hj. lia.
      * intros ([|i] & sticker & Hi & Hfail & Hbefore); cbn in Hi.
        -- injection Hi as <-. congruence.
        -- destruct (Hbefore 0%nat s ltac:(lia) eq_refl) as [url Hurl]. congruence.
Qed.

(** A pack fails to decode exactly when one of its hashes does. *)
Lemma decode_pack_Err (stickerPack : StickerPack) :
  (exists e, decode_pack stickerPack = Err e) <->
  (exists hash e, hash ∈ pack_hashes stickerPack /\ decodeStringHash hash = Err e).
Proof.
  unfold decode_pack, pack_hashes. split.
  - intros [e He].
    destruct (decodeStringHash (Preview stickerPack)) as [pv|e1] eqn:Hp.
    2:{ exists (Preview stickerPack), e1. split; [apply list_elem_of_here | exact Hp]. }
    destruct (decodeStringHash (Thumbnail stickerPack)) as [th|e2] eqn:Ht.
    2:{ exists (Thumbnail stickerPack), e2.
        split; [apply list_elem_of_further, list_elem_of_here | exact Ht]. }
    destruct (decode_stickers (Stickers stickerPack)) as [ds|e3] eqn:Hd; [discriminate|].
    apply decode_stickers_Err in Hd as (i & sticker & Hi & Hfail & _).
    exists (Sticker_Hash sticker), e3. split; [|exact Hfail].
    do 2 apply list_elem_of_further. apply list_elem_of_fmap.
    exists sticker. split; [reflexivity|]. eapply list_elem_of_lookup_2; eauto.
  - intros (hash & e & Hin & Hfail).
    destruct (decodeStringHash (Preview stickerPack)) as [pv|e1] eqn:Hp; [|eauto].
    destruct (decodeStringHash (Thumbnail stickerPack)) as [th|e2] eqn:Ht; [|eauto].
    destruct (decode_stickers (Stickers stickerPack)) as [ds|e3] eqn:Hd; [|eauto].
    exfalso.
    apply elem_of_cons in Hin as [->|Hin]; [congruence|].
    apply elem_of_cons in Hin as [->|Hin]; [congruence|].
    apply list_elem_of_fmap in Hin as (sticker & -> & Hin).
    apply list_elem_of_lookup in Hin as [i Hi].
    destruct (decode_stickers_Ok _ _ Hd) as [_ Hall].
    destruct (Hall i sticker Hi) as (s' & _ & _ & Hok). congruence.
Qed.

Lemma decode_packs_Ok (entries decoded : list (Z * StickerPack)) :
  decode_packs entries = Ok decoded ->
  decoded.*1 = entries.*1 /\
  forall (k : Z) (pack' : StickerPack),
    (k, pack') ∈ decoded ->
    exists pack, (k, pack) ∈ entries /\ decode_pack pack = Ok pack'.
Proof.
  revert decoded. induction entries as [|[k0 p0] entries IH]; intros decoded; cbn.
  - intros [= <-]. split; [reflexivity|]. intros k pack' Hin.
    now apply elem_of_nil in Hin.
  - destruct (decode_pack p0) as [d0|e] eqn:Hd0; [|discriminate].
    destruct (decode_packs entries) as [ds|e]; [|discriminate].
    intros [= <-]. destruct (IH ds eq_refl) as [Hfst Hall].
    split; [cbn; congruence|].
    intros k pack' Hin. apply elem_of_cons in Hin as [[= -> ->]|Hin].
    + exists p0. split; [apply list_elem_of_here | exact Hd0].
    + destruct (Hall k pack' Hin) as (pack & Hin' & Hd).
      exists pack. split; [now apply list_elem_of_further | exact Hd].
Qed.

Lemma decode_packs_Err (entries : list (Z * StickerPack)) :
  (exists e, decode_packs entries = Err e) <->
  (exists k pack e, (k, pack) ∈ entries /\ decode_pack pack = Err e).
Proof.
  induction entries as [|[k0 p0] entries IH]; cbn.
  - split; [intros [e He]; discriminate|].
    intros (k & pack & e & Hin & _). now apply elem_of_nil in Hin.
  - destruct (decode_pack p0) as [d0|e0] eqn:Hd0.
    + destruct (decode_packs entries) as [ds|e1].
      * split; [intros [e He]; discriminate|].
        intros (k & pack & e & Hin & Hfail).
        apply elem_of_cons in Hin as [[= -> ->]|Hin]; [congruence|].
        assert (Hex : exists e', @Ok (list (Z * StickerPack)) ds = Err e')
          by (apply IH; eauto).
        destruct Hex as [e' He']. discriminate.
      * split; [|eauto]. intros _.
        destruct (proj1 IH (ex_intro _ e1 eq_refl)) as (k & pack & e & Hin & Hfail).
        exists k, pack, e. split; [now apply list_elem_of_further | exact Hfail].
    + split; [|eauto]. intros _. exists k0, p0, e0.
      split; [apply list_elem_of_here | exact Hd0].
Qed.

(** X18.  When [Pending] succeeds it returns the pending packs under
    the same keys, each marked with [statusPending], with preview and
    thumbnail replaced by their decoded hashes, and with the same
    stickers in the same order, each keeping its hash and getting the
    decoded hash as URL. *)
Theorem Pending_decodes_every_pack
    (adb : accountsDB) (decoded : StickerPackCollection) :
  Pending adb = Ok decoded ->
  exists packs,
    pendingStickerPacks adb = Ok packs /\
    dom decoded = dom packs /\
    forall (k : Z) (pack : StickerPack),
      packs !! k = Some pack ->
      exists pack',
        decoded !! k = Some pack' /\
        Status pack' = statusPending /\
        decodeStringHash (Preview pack) = Ok (Preview pack') /\
        decodeStringHash (Thumbnail pack) = Ok (Thumbnail pack') /\
        length (Stickers pack') = length (Stickers pack) /\
        forall (i : nat) (sticker : Sticker),
          Stickers pack !! i = Some sticker ->
          exists sticker',
            Stickers pack' !! i = Some sticker' /\
            Sticker_Hash sticker' = Sticker_Hash sticker /\
            decodeStringHash (Sticker_Hash sticker) = Ok (Sticker_URL sticker').
Proof.
  unfold Pending.
  destruct (pendingStickerPacks adb) as [packs|e]; [|discriminate].
  destruct (decode_packs (map_to_list packs)) as [entries|e] eqn:Hd; [|discriminate].
  intros [= <-]. exists packs. split; [reflexivity|].
  destruct (decode_packs_Ok _ _ Hd) as [Hfst Hall].
  assert (Hnd : NoDup entries.*1).
  { rewrite Hfst. apply NoDup_fst_map_to_list. }
  assert (Hdom : dom (list_to_map entries : StickerPackCollection) = dom packs).
  { apply set_eq. intros k. rewrite dom_list_to_map, elem_of_list_to_set, Hfst.
    rewrite elem_of_dom. split.
    - intros Hin. apply list_elem_of_fmap in Hin as ([k' p] & -> & Hin).
      apply elem_of_map_to_list in Hin. eauto.
    - intros [p Hp]. apply list_elem_of_fmap. exists (k, p).
      split; [reflexivity|]. now apply elem_of_map_to_list. }
  split; [exact Hdom|].
  intros k pack Hk.
  assert (Hin : k ∈ dom (list_to_map entries : StickerPackCollection)).
  { rewrite Hdom. apply elem_of_dom. eauto. }
  apply elem_of_dom in Hin as [pack' Hk'].
  exists pack'. split; [exact Hk'|].
  apply elem_of_list_to_map in Hk'; [|exact Hnd].
  destruct (Hall k pack' Hk') as (pack0 & Hin0 & Hdec).
  apply elem_of_map_to_list in Hin0.
  assert (pack0 = pack) by congruence. subst pack0.
  unfold decode_pack in Hdec.
  destruct (decodeStringHash (Preview pack)) as [pv|e]; [|discriminate].
  destruct (decodeStringHash (Thumbnail pack)) as [th|e]; [|discriminate].
  destruct (decode_stickers (Stickers pack)) as [ds|e] eqn:Hds; [|discriminate].
  injection Hdec as <-. cbn.
  destruct (decode_stickers_Ok _ _ Hds) as [Hlen Hst].
  repeat split; auto.
Qed.

Lemma decode_pack_Err_hash (stickerPack : StickerPack) (e : Error) :
  decode_pack stickerPack = Err e ->
  exists hash, hash ∈ pack_hashes stickerPack /\ decodeStringHash hash = Err e.
Proof.
  unfold decode_pack, pack_hashes.
  destruct (decodeStringHash (Preview stickerPack)) as [pv|e1] eqn:Hp.
  2:{ intros [= <-]. exists (Preview stickerPack).
      split; [apply list_elem_of_here | exact Hp]. }
  destruct (decodeStringHash (Thumbnail stickerPack)) as [th|e2] eqn:Ht.
  2:{ intros [= <-]. exists (Thumbnail stickerPack).
      split; [apply list_elem_of_further, list_elem_of_here | exact Ht]. }
  destruct (decode_stickers (Stickers stickerPack)) as [ds|e3] eqn:Hd; [discriminate|].
  intros [= <-].
  apply decode_stickers_Err in Hd as (i & sticker & Hi & Hfail & _).
  exists (Sticker_Hash sticker). split; [|exact Hfail].
  do 2 apply list_elem_of_further. apply list_elem_of_fmap.
  exists sticker. split; [reflexivity|]. eapply list_elem_of_lookup_2; eauto.
Qed.

Lemma decode_packs_Err_entry (entries : list (Z * StickerPack)) (e : Error) :
  decode_packs entries = Err e ->
  exists k pack, (k, pack) ∈ entries /\ decode_pack pack = Err e.
Proof.
  induction entries as [|[k0 p0] entries IH]; cbn; [discriminate|].
  destruct (decode_pack p0) as [d0|e0] eqn:Hd0.
  - destruct (decode_packs entries) as [ds|e1]; [discriminate|].
    intros [= <-]. destruct (IH eq_refl) as (k & pack & Hin & Hfail).
    exists k, pack. split; [now apply list_elem_of_further | exact Hfail].
  - intros [= <-]. exists k0, p0. split; [apply list_elem_of_here | exact Hd0].
Qed.

(** X19.  [Pending] fails exactly when the hash of a preview, of a
    thumbnail or of a sticker of some pending pack cannot be decoded,
    and the error it returns is the decoding error of such a hash. *)
Theorem Pending_fails_iff_hash_undecodable
    (adb : accountsDB) (packs : StickerPackCollection) :
  pendingStickerPacks adb = Ok packs ->
  ((exists e, Pending adb = Err e) <->
   (exists k pack hash e,
       packs !! k = Some pack /\ hash ∈ pack_hashes pack /\
       decodeStringHash hash = Err e)) /\
  (forall e, Pending adb = Err e ->
             exists k pack hash,
               packs !! k = Some pack /\ hash ∈ pack_hashes pack /\
               decodeStringHash hash = Err e).
Proof.
  intros Hread.
  assert (Hsame : forall e, Pending adb = Err e ->
             exists k pack hash,
               packs !! k = Some pack /\ hash ∈ pack_hashes pack /\
               decodeStringHash hash = Err e).
  { intros e. unfold Pending. rewrite Hread.
    destruct (decode_packs (map_to_list packs)) as [entries|e0] eqn:Hd; [discriminate|].
    intros [= <-].
    destruct (decode_packs_Err_entry _ _ Hd) as (k & pack & Hin & Hfail).
    destruct (decode_pack_Err_hash _ _ Hfail) as (hash & Hhash & Hdec).
    exists k, pack, hash. split; [now apply elem_of_map_to_list | auto]. }
  split; [|exact Hsame]. split.
  - intros [e He]. destruct (Hsame e He) as (k & pack & hash & H1 & H2 & H3).
    exists k, pack, hash, e. auto.
  - intros (k & pack & hash & e & Hk & Hhash & Hdec).
    unfold Pending. rewrite Hread.
    destruct (proj2 (decode_pack_Err pack)) as [e1 Hfail]; [eauto|].
    destruct (proj2 (decode_packs_Err (map_to_list packs))) as [e2 He2].
    { exists k, pack, e1. split; [now apply elem_of_map_to_list | exact Hfail]. }
    rewrite He2. eauto.
Qed.

End StickersFacts.

(** ** The properties above at concrete inputs *)

Lemma constructed_server_never_panics_witness :
  run_actions [CallStart; RunListen 0; CallStop None; ServeReturn 0 ErrServerClosed;
               CallToForeground; RunListen 1]
    (fresh_world Scenario.constructed Sample.loopback) <> Panic.
Proof.
  apply (proj1 (@constructed_server_never_panics Sample.crypto Sample.messages []
                  (Sample.fresh_process 3)
                  (snd (@NewServer Sample.crypto Sample.messages []
                          (Sample.fresh_process 3)))
                  Scenario.constructed None eq_refl)).
Defined.

Lemma constructed_server_is_idle_witness :
  ToForeground (fresh_world Scenario.constructed Sample.loopback)
  = fresh_world Scenario.constructed Sample.loopback.
Proof.
  apply (@constructed_server_is_idle Sample.crypto Sample.messages []
           (Sample.fresh_process 3)
           (snd (@NewServer Sample.crypto Sample.messages [] (Sample.fresh_process 3)))
           Scenario.constructed None Sample.loopback None eq_refl).
Defined.

Lemma serve_failure_restarts_on_same_port_witness :
  exists w1 w2,
    Serve_returns 0 (ErrMsg "accept tcp: too many open files") Sample.serving = Next w1 /\
    run (srv w1) = true /\
    listenAndServe 1 w1 = Next w2 /\
    Port (srv w2) = 49152%Z.
Proof.
  destruct (serve_failure_restarts_on_same_port Sample.serving 49152 0 0
              (mkListener 49152 (listen_config Sample.certificate))
              (mk_http_Server
                 (<["/messages/identicons" := HIdenticon mk_identiconHandler]>
                    (<["/messages/audio" := HAudio (mk_audioHandler Sample.messages)]>
                       (<["/messages/images" := HImage (mk_imageHandler Sample.messages)]>
                          ∅)))
                 false)
              Sample.certificate (ErrMsg "accept tcp: too many open files"))
    as (w1 & w2 & H1 & _ & H3 & _ & _ & _ & H7 & H8 & _).
  - reflexivity.
  - reflexivity.
  - lia.
  - reflexivity.
  - vm_compute. reflexivity.
  - reflexivity.
  - vm_compute. reflexivity.
  - discriminate.
  - exists w1, w2. split; [exact H1|]. split; [exact H3|]. split; [exact H7 | exact H8].
Defined.

Lemma Start_while_serving_forgets_port_witness :
  exists w',
    run_actions [CallStart; RunListen 1] Sample.serving = Next w' /\
    Port (srv w') = 0%Z /\
    goroutines (snd (Stop None w')) !! 0%nat = goroutines Sample.serving !! 0%nat.
Proof.
  destruct (Start_while_serving_forgets_port Sample.serving 49152 Sample.certificate None)
    as (w' & Hrun & HP & _ & _ & _ & _ & Hgs & _).
  - reflexivity.
  - discriminate.
  - vm_compute. reflexivity.
  - reflexivity.
  - exists w'. split; [exact Hrun|]. split; [exact HP|].
    apply (Hgs 0%nat). vm_compute. lia.
Defined.

Lemma persistent_bind_failure_retries_without_bound_witness :
  exists w' delta,
    retry_listen 3 Scenario.jammed = Next w' /\
    logger (srv w') = logger (srv Scenario.jammed) ++ delta /\
    length delta = 3%nat /\
    run (srv w') = false.
Proof.
  destruct (persistent_bind_failure_retries_without_bound 3 Scenario.jammed [GDone])
    as (w' & delta & done & Hrun & _ & Hr & Hlog & Hlen & _).
  - exists Sample.certificate, (ErrMsg "listen tcp: bind: address already in use"),
      (network Scenario.jammed).
    split; vm_compute; reflexivity.
  - vm_compute. reflexivity.
  - reflexivity.
  - exists w', delta. split; [exact Hrun|]. split; [exact Hlog|].
    split; [exact Hlen | exact Hr].
Defined.

Lemma Stop_shuts_current_server_witness :
  exists w1 w2,
    Stop (Some (ErrMsg "close tcp")) Sample.serving = (Some (ErrMsg "close tcp"), w1) /\
    run (srv w1) = true /\
    (49152%Z ∉ in_use (network w1)) /\
    Serve_returns 0 (ErrMsg "ignored") w1 = Next w2 /\
    run (srv w2) = false.
Proof.
  destruct (Stop_shuts_current_server Sample.serving 0 0
              (mkListener 49152 (listen_config Sample.certificate))
              (mk_http_Server
                 (<["/messages/identicons" := HIdenticon mk_identiconHandler]>
                    (<["/messages/audio" := HAudio (mk_audioHandler Sample.messages)]>
                       (<["/messages/images" := HImage (mk_imageHandler Sample.messages)]>
                          ∅)))
                 false)
              (Some (ErrMsg "close tcp")) None (ErrMsg "ignored"))
    as (w1 & w2 & H1 & H2 & _ & H4 & _ & H6 & H7 & _).
  - reflexivity.
  - vm_compute. reflexivity.
  - reflexivity.
  - vm_compute. reflexivity.
  - exists w1, w2. split; [exact H1|]. split; [now rewrite H2|].
    split; [exact H4|]. split; [exact H6 | exact H7].
Defined.

Lemma generateTLSCert_success_shape_witness :
  exists finalCert,
    globalCertificate (snd (generateTLSCert (Sample.fresh_process 3))) = Some finalCert /\
    globalPem (snd (generateTLSCert (Sample.fresh_process 3)))
    = "-----BEGIN CERTIFICATE-----".
Proof.
  destruct (@generateTLSCert_success_shape Sample.crypto (Sample.fresh_process 3)
              (snd (generateTLSCert (Sample.fresh_process 3))) tt eq_refl eq_refl)
    as (priv & r1 & c & r2 & certPem & keyPem & r3 & fc & Hk & Hx & Hp & Hkp & Hp').
  exists fc. rewrite Hp'. split; [reflexivity|]. cbn [globalPem].
  vm_compute in Hk. injection Hk as <- <-.
  vm_compute in Hx. injection Hx as <- <-.
  vm_compute in Hp. injection Hp as <- <- <-. reflexivity.
Defined.

Lemma generateTLSCert_error_iff_witness :
  exists p',
    PublicTLSCert (Sample.fresh_process 2) = ((EmptyString, Some (ErrMsg "EOF")), p') /\
    globalCertificate p' = None.
Proof.
  exists (snd (generateTLSCert (Sample.fresh_process 2))).
  destruct (proj2 (@generateTLSCert_error_iff Sample.crypto (Sample.fresh_process 2)
                     (ErrMsg "EOF"))
              (snd (generateTLSCert (Sample.fresh_process 2))) eq_refl)
    as (Hc & _ & _ & Hpub).
  split; [exact Hpub | exact Hc].
Defined.

Lemma servers_share_certificate_witness :
  exists s2,
    cert s2 = Some Sample.certificate /\
    db s2 = Scenario.odd_messages.
Proof.
  destruct (@servers_share_certificate Sample.crypto Sample.messages Scenario.odd_messages
              [] [] (Sample.fresh_process 3)
              (snd (@NewServer Sample.crypto Sample.messages [] (Sample.fresh_process 3)))
              Scenario.constructed None 0%nat 0%Z eq_refl)
    as (s2 & _ & Hc & _ & Hdb & _).
  exists s2. split; [exact Hc | exact Hdb].
Defined.

Lemma handlers_read_first_value_only_witness :
  @imageHandler_ServeHTTP Sample.media (mk_imageHandler Sample.messages) [] Sample.blank
    (mkRequest "/messages/images" {["messageId" := ["m1"; "m2"]]})
  = @imageHandler_ServeHTTP Sample.media (mk_imageHandler Sample.messages) [] Sample.blank
      (mkRequest "/elsewhere" (<["publicKey" := ["0x04"]]> {["messageId" := ["m1"]]})).
Proof.
  apply (proj1 (@handlers_read_first_value_only Sample.media
                  (mk_imageHandler Sample.messages) (mk_audioHandler Sample.messages)
                  mk_identiconHandler 0%Z [] Sample.blank
                  (mkRequest "/messages/images" {["messageId" := ["m1"; "m2"]]})
                  (mkRequest "/elsewhere"
                     (<["publicKey" := ["0x04"]]> {["messageId" := ["m1"]]}))
                  "m1" ["m2"] [])).
  - vm_compute. reflexivity.
  - vm_compute. reflexivity.
Defined.

Lemma handlers_only_append_witness :
  exists lg' w',
    @identiconHandler_ServeHTTP Sample.media mk_identiconHandler 0%Z [] Scenario.used
      (Sample.get "/messages/identicons" "publicKey" "0x04") = Some (lg', w') /\
    Header w' !! "Vary" = Some ["Origin"] /\
    exists bytes, Body w' = list_byte_of_string "x" ++ bytes.
Proof.
  eexists _, _. split; [vm_compute; reflexivity|].
  destruct (proj2 (proj2 (@handlers_only_append Sample.media
                            (mk_imageHandler Sample.messages)
                            (mk_audioHandler Sample.messages)
                            mk_identiconHandler 0%Z [] Scenario.used
                            (Sample.get "/messages/identicons" "publicKey" "0x04")
                            _ _))
              eq_refl)
    as (_ & Hbody & _ & Hkeys).
  split; [|exact Hbody].
  rewrite Hkeys; [vm_compute; reflexivity|].
  intros Hin. repeat (apply elem_of_cons in Hin as [Hin|Hin]; [discriminate|]).
  now apply elem_of_nil in Hin.
Defined.

Lemma imageHandler_sniff_failure_still_serves_witness :
  exists lg' w',
    @imageHandler_ServeHTTP Sample.media (mk_imageHandler Scenario.odd_messages) []
      Sample.blank (Sample.get "/messages/images" "messageId" "m3") = Some (lg', w') /\
    lg' = [mkLog "failed to get mime" (Some (ErrMsg "image format not supported"))] /\
    Header w' !! "Content-Type" = Some [EmptyString] /\
    Body w' = list_byte_of_string "GIF89a".
Proof.
  destruct (@imageHandler_sniff_failure_still_serves Sample.media
              (mk_imageHandler Scenario.odd_messages) [] Sample.blank
              (Sample.get "/messages/images" "messageId" "m3") "m3" []
              (mkMessage (list_byte_of_string "GIF89a") []) EmptyString
              (ErrMsg "image format not supported"))
    as (lg' & w' & Hrun & Hlog & Hct & _ & Hbody).
  - vm_compute. reflexivity.
  - vm_compute. reflexivity.
  - discriminate.
  - vm_compute. reflexivity.
  - exists lg', w'. split; [exact Hrun|]. split; [exact Hlog|].
    split; [exact Hct | exact Hbody].
Defined.

Lemma Scenario_store_round_trips : @store_round_trips Scenario.stickers.
Proof. intros packs adb adb' [= <-]. reflexivity. Qed.

Lemma pending_read_error_propagates_witness :
  @AddPending Scenario.stickers 1 7 Scenario.closed_settings
  = (Some (ErrMsg "sql: database is closed"), Scenario.closed_settings) /\
  @Pending Scenario.stickers Scenario.closed_settings
  = Err (ErrMsg "sql: database is closed").
Proof.
  destruct (@pending_read_error_propagates Scenario.stickers Scenario.closed_settings
              (ErrMsg "sql: database is closed") 1 7 eq_refl)
    as (Hadd & _ & Hpending & _).
  split; [exact Hadd | exact Hpending].
Defined.

Lemma AddPending_rejects_pending_pack_witness :
  @AddPending Scenario.stickers 1 (7 + 2 ^ 64) Scenario.settings_with_7
  = (Some (ErrMsg "sticker pack is already pending"), Scenario.settings_with_7).
Proof.
  apply (@AddPending_rejects_pending_pack Scenario.stickers Scenario.settings_with_7
           {[7%Z := mkStickerPack 0 "e301p" "e301t"
                      [mkSticker "e3011" EmptyString; mkSticker "e3012" EmptyString]]}
           1 7 (7 + 2 ^ 64)).
  - vm_compute. reflexivity.
  - vm_compute. eauto.
  - vm_compute. reflexivity.
Defined.

Lemma AddPending_records_pack_witness :
  exists stickerPack,
    @pendingStickerPacks Scenario.stickers Scenario.settings_with_7
    = Ok (<[pack_key 7 := stickerPack]> ∅) /\
    @AddPending Scenario.stickers 1 7 Scenario.settings_with_7
    = (Some (ErrMsg "sticker pack is already pending"), Scenario.settings_with_7).
Proof.
  destruct (@AddPending_records_pack Scenario.stickers Scenario.empty_settings
              Scenario.settings_with_7 1 7 Scenario_store_round_trips eq_refl)
    as (packs & st & pack & Hread & _ & _ & _ & Hread' & Hagain).
  injection Hread as <-.
  exists pack. split; [exact Hread' | exact Hagain].
Defined.

Lemma RemovePending_removes_exactly_witness :
  @RemovePending Scenario.stickers 8 Scenario.settings_with_7
  = (None, Scenario.settings_with_7) /\
  @pendingStickerPacks Scenario.stickers
    (snd (@RemovePending Scenario.stickers 7 Scenario.settings_with_7))
  = Ok ∅.
Proof.
  destruct (@RemovePending_removes_exactly Scenario.stickers Scenario.settings_with_7
              (snd (@RemovePending Scenario.stickers 7 Scenario.settings_with_7))
              {[7%Z := mkStickerPack 0 "e301p" "e301t"
                         [mkSticker "e3011" EmptyString; mkSticker "e3012" EmptyString]]}
              8 Scenario_store_round_trips)
    as [Habsent _].
  { vm_compute. reflexivity. }
  split; [apply Habsent; vm_compute; reflexivity|].
  destruct (@RemovePending_removes_exactly Scenario.stickers Scenario.settings_with_7
              (snd (@RemovePending Scenario.stickers 7 Scenario.settings_with_7))
              {[7%Z := mkStickerPack 0 "e301p" "e301t"
                         [mkSticker "e3011" EmptyString; mkSticker "e3012" EmptyString]]}
              7 Scenario_store_round_trips)
    as [_ Hpresent].
  { vm_compute. reflexivity. }
  destruct (Hpresent eq_refl) as [Hread _].
  rewrite Hread. vm_compute. reflexivity.
Defined.

Lemma AddPending_then_RemovePending_witness :
  @pendingStickerPacks Scenario.stickers
    (snd (@RemovePending Scenario.stickers 7 Scenario.settings_with_7))
  = Ok ∅.
Proof.
  apply (@AddPending_then_RemovePending Scenario.stickers Scenario.empty_settings
           Scenario.settings_with_7
           (snd (@RemovePending Scenario.stickers 7 Scenario.settings_with_7))
           ∅ 1 7 Scenario_store_round_trips).
  - reflexivity.
  - reflexivity.
  - reflexivity.
Defined.

Lemma Pending_decodes_every_pack_witness :
  exists decoded pack',
    @Pending Scenario.stickers Scenario.settings_with_7 = Ok decoded /\
    decoded !! 7%Z = Some pack' /\
    Status pack' = 2%Z /\
    length (Stickers pack') = 2%nat.
Proof.
  exists (<[7%Z := mkStickerPack 2 "ipfs/e301p" "ipfs/e301t"
                     [mkSticker "e3011" "ipfs/e3011"; mkSticker "e3012" "ipfs/e3012"]]> ∅).
  assert (Hrun : @Pending Scenario.stickers Scenario.settings_with_7
                 = Ok (<[7%Z := mkStickerPack 2 "ipfs/e301p" "ipfs/e301t"
                          [mkSticker "e3011" "ipfs/e3011";
                           mkSticker "e3012" "ipfs/e3012"]]> ∅)).
  { vm_compute. reflexivity. }
  destruct (@Pending_decodes_every_pack Scenario.stickers _ _ Hrun)
    as (packs & Hread & _ & Hall).
  destruct (Hall 7%Z (mkStickerPack 0 "e301p" "e301t"
                        [mkSticker "e3011" EmptyString; mkSticker "e3012" EmptyString]))
    as (pack' & Hk & Hst & _ & _ & Hlen & _).
  { injection Hread as <-. vm_compute. reflexivity. }
  exists pack'. split; [exact Hrun|]. split; [exact Hk|].
  split; [exact Hst | exact Hlen].
Defined.

Lemma Pending_fails_iff_hash_undecodable_witness :
  exists e, @Pending Scenario.stickers Scenario.broken_settings = Err e.
Proof.
  apply (proj1 (@Pending_fails_iff_hash_undecodable Scenario.stickers
                  Scenario.broken_settings
                  {[9%Z := mkStickerPack 0 "e301p" "e301t"
                             [mkSticker EmptyString EmptyString]]}
                  eq_refl)).
  exists 9%Z, (mkStickerPack 0 "e301p" "e301t" [mkSticker EmptyString EmptyString]),
    EmptyString, (ErrMsg "invalid hash").
  split; [vm_compute; reflexivity|]. split; [|vm_compute; reflexivity].
  apply list_elem_of_further, list_elem_of_further, list_elem_of_here.
Defined.

(** X20.  [Stop] takes effect even when it comes before the listen
    goroutine that [Start] spawned has run: that goroutine still binds
    the port and remembers it, but [Serve] refuses to serve on the
    server that was shut down, so the listener is closed at once, the
    running flag ends up false and nothing is logged. *)
Theorem Stop_before_listen_takes_effect
    (w : World) (g h : nat) (hs : http_Server) (c : tls_Certificate)
    (lnerr : option Error) (l : Listener) (n' : Net) :
  server (srv w) = Some h ->
  http_servers w !! h = Some hs ->
  goroutines w !! g = Some GListen ->
  cert (srv w) = Some c ->
  tls_Listen (Port (srv w)) (listen_config c) (network (snd (Stop lnerr w))) = (Ok l, n') ->
  exists w2,
    listenAndServe g (snd (Stop lnerr w)) = Next w2 /\
    run (srv w2) = false /\
    Port (srv w2) = Addr_Port l /\
    goroutines w2 !! g = Some GDone /\
    network w2 = net_close (Addr_Port l) n' /\
    logger (srv w2) = logger (srv w) /\
    ToForeground w2 = snd (Start w2).
Proof.
  intros Hs Hhs Hg Hc.
  assert (Hh : (h < length (http_servers w))%nat) by (eapply lookup_lt_Some; eauto).
  assert (Hgl : (g < length (goroutines w))%nat) by (eapply lookup_lt_Some; eauto).
  assert (Hstop : exists n1,
             snd (Stop lnerr w)
             = mkWorld (srv w) (<[h := mk_http_Server (http_Handler hs) true]> (http_servers w))
                       (goroutines w) n1).
  { unfold Stop, Shutdown. rewrite Hs, Hhs.
    destruct (inShutdown hs) eqn:Hsd.
    - exists (network w). cbn. destruct w as [s hss gs n0]. cbn in *. f_equal.
      symmetry. apply list_insert_id. rewrite Hhs. f_equal.
      destruct hs as [mux sd]. cbn in *. now subst sd.
    - eexists. reflexivity. }
  destruct Hstop as [n1 ->]. cbn [network]. intros Hl.
  destruct w as [[port r sv lg d ct] hss gs n0]. cbn in *. subst sv ct.
  eexists. split.
  { unfold listenAndServe. cbn. rewrite Hg, Hl. cbn.
    rewrite list_lookup_insert_eq by exact Hh. cbn. reflexivity. }
  cbn. split; [reflexivity|]. split; [reflexivity|].
  split; [now apply list_lookup_insert_eq|].
  repeat split.
Qed.

Lemma Stop_before_listen_takes_effect_witness :
  exists w2,
    listenAndServe 0 (snd (Stop None Sample.started)) = Next w2 /\
    run (srv w2) = false /\
    Port (srv w2) = 49152%Z /\
    network w2 = Sample.loopback.
Proof.
  destruct (Stop_before_listen_takes_effect Sample.started 0 0
              (mk_http_Server
                 (<["/messages/identicons" := HIdenticon mk_identiconHandler]>
                    (<["/messages/audio" := HAudio (mk_audioHandler Sample.messages)]>
                       (<["/messages/images" := HImage (mk_imageHandler Sample.messages)]>
                          ∅)))
                 false)
              Sample.certificate None
              (mkListener 49152 (listen_config Sample.certificate))
              (net_bind 49152 Sample.loopback))
    as (w2 & Hrun & Hr & HP & _ & Hn & _).
  - reflexivity.
  - vm_compute. reflexivity.
  - vm_compute. reflexivity.
  - reflexivity.
  - vm_compute. reflexivity.
  - exists w2. split; [exact Hrun|]. split; [exact Hr|]. split; [exact HP|].
    rewrite Hn. vm_compute. reflexivity.
Defined.
